(** * DirectPV device discovery and reconciliation: a shallow embedding

    The development follows the Go packages of the repository:
    [Go] collects the little of the Go language and standard library the
    code relies on (fixed-width integers, byte strings, slices that can
    fault, nil maps); [sys] and [directcsi] hold the records; [uevent],
    [node] and [volume] hold the functions, under the names they have in
    the source. *)

From Stdlib Require Import ZArith String Ascii Lia Bool.
From Stdlib.Strings Require Import Byte.
From stdpp Require Import gmap strings list.

Open Scope string_scope.

(** ** Go: language level helpers *)

Module Go.

(** Run-time faults (panics) the embedded code can raise. *)
Inductive fault : Type :=
| NilMapWrite          (* assignment to entry in nil map *)
| IndexOutOfRange      (* b[i] with i >= len(b) *)
| SliceOutOfRange.     (* b[i:] with i > len(b) *)

(** Fixed-width integers are integers in [Z] together with the wrap
    around of the conversion or operation that produced them. *)
Definition wrap_int64 (z : Z) : Z :=
  (z + 2 ^ 63) mod 2 ^ 64 - 2 ^ 63.

Definition wrap_uint32 (z : Z) : Z := z mod 2 ^ 32.

Definition in_int64 (z : Z) : Prop := (- 2 ^ 63 <= z < 2 ^ 63)%Z.

(** [len(s)] of a string: its number of bytes. *)
Definition len (s : string) : nat := String.length s.

(** [strings.ReplaceAll(s, string(c), "")] for a one-byte pattern: every
    occurrence of the byte is dropped. *)
Fixpoint removeByte (c : ascii) (s : string) : string :=
  match s with
  | EmptyString => EmptyString
  | String x s' =>
      if Ascii.eqb x c then removeByte c s' else String x (removeByte c s')
  end.

(** [s[:n]] and [s[n:]]; both are used by the source under a guard that
    keeps [n] within [len(s)]. *)
Fixpoint take (n : nat) (s : string) : string :=
  match n, s with
  | S n', String x s' => String x (take n' s')
  | _, _ => EmptyString
  end.

Fixpoint drop (n : nat) (s : string) : string :=
  match n, s with
  | S n', String _ s' => drop n' s'
  | _, _ => s
  end.

(** [s[lo:hi]] *)
Definition slice (lo hi : nat) (s : string) : string :=
  take (hi - lo) (drop lo s).

(** What a Go call can end in: a value, a returned [error], or a panic. *)
Inductive result (E A : Type) : Type :=
| Ok (a : A)
| Err (e : E)
| Panic (f : fault).

Arguments Ok {E A} a.
Arguments Err {E A} e.
Arguments Panic {E A} f.

Definition bind {E A B} (r : result E A) (k : A -> result E B) : result E B :=
  match r with
  | Ok a => k a
  | Err e => Err e
  | Panic f => Panic f
  end.

(** A Go map value: [None] is the nil map (what [var m map[K]V] and an
    unassigned named result hold), [Some g] is a map made by [make] or a
    literal.  Reading a nil map is allowed, writing to it panics. *)
Definition map_assign {E V} (m : option (gmap positive V)) (k : positive) (v : V)
  : result E (option (gmap positive V)) :=
  match m with
  | None => Panic NilMapWrite
  | Some g => Ok (Some (<[k := v]> g))
  end.

(** [m[k]] on a [map[string]string]: the zero value when the key is absent. *)
Definition index (m : gmap string string) (k : string) : string :=
  default "" (m !! k).

(** *** Byte slices *)

(** [bytes.HasPrefix(b, prefix)] *)
Fixpoint HasPrefix (b prefix : list byte) : bool :=
  match prefix, b with
  | [], _ => true
  | p :: prefix', x :: b' => Byte.eqb x p && HasPrefix b' prefix'
  | _ :: _, [] => false
  end.

(** [b[n:]]: panics when [n > len(b)]. *)
Definition sliceFrom {E} (n : nat) (b : list byte) : result E (list byte) :=
  if (n <=? length b)%nat then Ok (List.skipn n b) else Panic SliceOutOfRange.

(** [b[i]]: panics when [i >= len(b)]. *)
Definition at_ {E} (i : nat) (b : list byte) : result E byte :=
  match List.nth_error b i with
  | Some x => Ok x
  | None => Panic IndexOutOfRange
  end.

Definition byteZ (x : byte) : Z := Z.of_N (Byte.to_N x).

(** [binary.BigEndian.Uint32(b)]: starts with the bounds check [_ = b[3]]. *)
Definition BigEndian_Uint32 {E} (b : list byte) : result E Z :=
  match b with
  | b0 :: b1 :: b2 :: b3 :: _ =>
      Ok (Z.lor (Z.lor (Z.lor (Z.shiftl (byteZ b0) 24) (Z.shiftl (byteZ b1) 16))
                       (Z.shiftl (byteZ b2) 8))
                (byteZ b3))
  | _ => Panic IndexOutOfRange
  end.

(** [bytes.Split(b, []byte{0})]: the pieces between NUL bytes; an input
    without a NUL is one piece. *)
Fixpoint SplitNul (b : list byte) : list (list byte) :=
  match b with
  | [] => [[]]
  | x :: b' =>
      if Byte.eqb x x00 then [] :: SplitNul b'
      else match SplitNul b' with
           | f :: fs => (x :: f) :: fs
           | [] => [[x]]
           end
  end.

(** [strings.SplitN(s, "=", 2)]: cut at the first [=], if there is one. *)
Fixpoint cutEq (s : string) : option (string * string) :=
  match s with
  | EmptyString => None
  | String x s' =>
      if Ascii.eqb x "=" then Some (EmptyString, s')
      else match cutEq s' with
           | Some (a, b) => Some (String x a, b)
           | None => None
           end
  end.

Definition SplitN2 (s : string) : list string :=
  match cutEq s with
  | Some (a, b) => [a; b]
  | None => [s]
  end.

(** [strings.ToLower] on the ASCII letters (partition table type names
    are ASCII). *)
Definition lowerByte (c : ascii) : ascii :=
  let n := nat_of_ascii c in
  if ((65 <=? n) && (n <=? 90))%nat then ascii_of_nat (n + 32) else c.

Fixpoint ToLower (s : string) : string :=
  match s with
  | EmptyString => EmptyString
  | String c s' => String (lowerByte c) (ToLower s')
  end.

(** [strings.HasPrefix] and [strings.TrimPrefix] *)
Definition HasPrefixS (s prefix : string) : bool := String.prefix prefix s.

Definition TrimPrefix (s prefix : string) : string :=
  if HasPrefixS s prefix then drop (String.length prefix) s else s.

(** [strconv.Atoi]: an optional sign and at least one decimal digit, the
    value within the range of [int]. *)
Definition digit (c : ascii) : option Z :=
  let n := Z.of_nat (nat_of_ascii c) in
  if ((48 <=? n) && (n <=? 57))%Z then Some (n - 48)%Z else None.

Fixpoint digits (acc : Z) (s : string) : option Z :=
  match s with
  | EmptyString => Some acc
  | String c s' =>
      match digit c with
      | Some d => digits (10 * acc + d) s'
      | None => None
      end
  end.

Definition Atoi (s : string) : option Z :=
  let '(neg, body) :=
    match s with
    | String "-" s' => (true, s')
    | String "+" s' => (false, s')
    | _ => (false, s)
    end in
  match body with
  | EmptyString => None
  | _ =>
      match digits 0 body with
      | Some n =>
          let v := if neg then (- n)%Z else n in
          if ((- 2 ^ 63 <=? v) && (v <? 2 ^ 63))%Z then Some v else None
      | None => None
      end
  end.

End Go.

Notation "x <- r ;; k" := (Go.bind r (fun x => k))
  (at level 100, r at next level, right associativity).

(** ** Package sys: the device snapshot *)

Module sys.

(** [sys.Device], with the fields the embedded functions read.  Integer
    fields hold the Go value; conversions such as [int64(device.Size)]
    are applied where the source applies them. *)
Record Device : Type := {
  Name : string;
  Major : Z;
  Minor : Z;
  Size : Z;
  Partition : Z;
  LogicalBlockSize : Z;
  PhysicalBlockSize : Z;
  Model : string;
  Vendor : string;
  Serial : string;
  UeventSerial : string;
  WWID : string;
  FSType : string;
  FSUUID : string;
  UeventFSUUID : string;
  PartUUID : string;
  PTUUID : string;
  PTType : string;
  DMName : string;
  DMUUID : string;
  MDUUID : string;
  Virtual : bool;
  ReadOnly : bool;
  Partitioned : bool;
  SwapOn : bool;
  Master : string;
  FirstMountPoint : string;
  FirstMountOptions : list string;
  MountPoints : list string;
  FreeCapacity : Z
}.

End sys.

(** ** Package directcsi: the persisted records *)

Module directcsi.

Inductive DriveStatus : Type :=
| DriveStatusInUse
| DriveStatusAvailable
| DriveStatusUnavailable
| DriveStatusReady
| DriveStatusTerminating.

Definition DriveStatus_eqb (a b : DriveStatus) : bool :=
  match a, b with
  | DriveStatusInUse, DriveStatusInUse
  | DriveStatusAvailable, DriveStatusAvailable
  | DriveStatusUnavailable, DriveStatusUnavailable
  | DriveStatusReady, DriveStatusReady
  | DriveStatusTerminating, DriveStatusTerminating => true
  | _, _ => false
  end.

Record DirectCSIDriveStatus : Type := {
  Path : string;
  AllocatedCapacity : Z;
  FreeCapacity : Z;
  RootPartition : string;
  PartitionNum : Z;
  Filesystem : string;
  Mountpoint : string;
  MountOptions : list string;
  NodeName : string;
  Status_DriveStatus : DriveStatus;
  ModelNumber : string;
  SerialNumber : string;
  TotalCapacity : Z;
  PhysicalBlockSize : Z;
  LogicalBlockSize : Z;
  Topology : option (gmap string string);
  FilesystemUUID : string;
  PartitionUUID : string;
  MajorNumber : Z;
  MinorNumber : Z;
  UeventSerial : string;
  UeventFSUUID : string;
  WWID : string;
  Vendor : string;
  DMName : string;
  DMUUID : string;
  MDUUID : string;
  PartTableUUID : string;
  PartTableType : string;
  Virtual : bool;
  ReadOnly : bool;
  Partitioned : bool;
  SwapOn : bool;
  Master : string
}.

(** [DirectCSIDrive]: object metadata (name, labels, finalizers) and the
    status.  [Labels] is [None] for a nil map. *)
Record DirectCSIDrive : Type := {
  Name : string;
  Labels : option (gmap string string);
  Finalizers : list string;
  Status : DirectCSIDriveStatus
}.

(** [*DirectCSIDrive]: the address of a record together with the record
    it points to.  Two pointers may hold equal records at different
    addresses. *)
Record DrivePtr : Type := {
  addr : positive;
  deref : DirectCSIDrive
}.

Module Vol.

Inductive ConditionStatus : Type :=
| ConditionTrue
| ConditionFalse
| ConditionUnknown.

(** [metav1.Condition], the two fields the source reads. *)
Record Condition : Type := {
  Type_ : string;
  CStatus : ConditionStatus
}.

Record DirectCSIVolumeStatus : Type := {
  Drive : string;
  TotalCapacity : Z;
  HostPath : string;
  NodeName : string;
  Conditions : list Condition
}.

(** [DirectCSIVolume]; [DeletionTimestamp] is [None] when it is unset. *)
Record DirectCSIVolume : Type := {
  Name : string;
  DeletionTimestamp : option Z;
  Finalizers : list string;
  Status : DirectCSIVolumeStatus
}.

End Vol.

End directcsi.

(** ** Package uevent: wire decoder, listener loop and identity matcher *)

Module uevent.

Import Go.

(** *** UUID normalisation (listener.go) *)

(** The inner expression of [normalizeUUID]:
    [strings.ReplaceAll(strings.ReplaceAll(uuid, ":", ""), "-", "")]. *)
Definition strip (uuid : string) : string :=
  removeByte "-" (removeByte ":" uuid).

(** [fmt.Sprintf("%v-%v-%v-%v-%v", u[:8], u[8:12], u[12:16], u[16:20], u[20:])] *)
Definition dashed (u : string) : string :=
  slice 0 8 u ++ "-" ++ slice 8 12 u ++ "-" ++ slice 12 16 u ++ "-"
    ++ slice 16 20 u ++ "-" ++ drop 20 u.

Definition normalizeUUID (uuid : string) : string :=
  let u := strip uuid in
  if (20 <? len u)%nat then dashed u else uuid.

(** A byte string free of the two separators. *)
Fixpoint sepFree (s : string) : bool :=
  match s with
  | EmptyString => true
  | String x s' => negb (Ascii.eqb x ":") && negb (Ascii.eqb x "-") && sepFree s'
  end.

(** The shape of a normalised UUID: 36 bytes, a dash at offsets 8, 13, 18
    and 23, and no separator anywhere else. *)
Fixpoint grouped (i : nat) (s : string) : bool :=
  match s with
  | EmptyString => true
  | String x s' =>
      (if existsb (Nat.eqb i) [8; 13; 18; 23]%nat
       then Ascii.eqb x "-"
       else negb (Ascii.eqb x ":") && negb (Ascii.eqb x "-"))
      && grouped (S i) s'
  end.

Definition isNormalized (s : string) : bool :=
  (len s =? 36)%nat && grouped 0 s.

(** *** Wire decoder (listener.go) *)

(** ["libudev\x00"] *)
Definition libudev : list byte := [x6c; x69; x62; x75; x64; x65; x76; x00].
Definition libudevMagic : Z := 0xfeedcafe.
Definition minMsgLen : nat := 40.

Definition add : string := "add".
Definition change : string := "change".
Definition remove : string := "remove".

(** The errors the package creates, one constructor per [errors.New] or
    [fmt.Errorf] site, and [errOther] for an error handed up from a callee
    outside the package (socket, strconv, udev). *)
Inductive error : Type :=
| errNonDeviceEvent                       (* "Uevent is not for a block device" *)
| errEmptyBuf                             (* "buffer is empty" *)
| errNoMatchFound                         (* "no matching drive found" *)
| errSignatureNotFound                    (* "libudev signature not found" *)
| errMagicMismatch (expected got : Z)     (* "libudev magic mismatch; ..." *)
| errOffsetNotMoreThan17 (offset : Z)     (* "payload offset %v is not more than 17" *)
| errOffsetBeyondLength (offset : Z) (length : nat)
                                (* "payload offset %v beyond message length %v" *)
| errInvalidAction (action : string)      (* "invalid device action: %s" *)
| errTooManyMatches (name : string)       (* "device %s has too many matches" *)
| errOther (description : string).

(** One iteration of the loop over [fields] in [parse]. *)
Definition addField (event : gmap string string) (field : list byte)
  : gmap string string :=
  match field with
  | [] => event
  | _ =>
      match SplitN2 (string_of_list_byte field) with
      | [k] => <[k := ""]> event
      | [k; v] => <[k := v]> event
      | _ => event
      end
  end.

Definition parse (msg : list byte) : result error (gmap string string) :=
  if negb (HasPrefix msg libudev) then Err errSignatureNotFound else
  rest <- sliceFrom 8 msg ;;
  magic <- BigEndian_Uint32 rest ;;
  if negb (magic =? libudevMagic)%Z then Err (errMagicMismatch libudevMagic magic) else
  b16 <- at_ 16 msg ;;
  let offset := byteZ b16 in
  if (offset <? 17)%Z then Err (errOffsetNotMoreThan17 offset) else
  if (Z.of_nat (length msg) <? offset)%Z
  then Err (errOffsetBeyondLength offset (length msg)) else
  payload <- sliceFrom (Z.to_nat offset) msg ;;
  Ok (fold_left addField (SplitNul payload) ∅).

(** *** Listener loop (listener.go) *)

Definition atoi (s : string) : result error Z :=
  match Atoi s with
  | Some z => Ok z
  | None => Err (errOther "strconv.Atoi: invalid syntax or value out of range")
  end.

(** [errors.Is(err, errNonDeviceEvent)]: the sentinel is unexported and
    never wrapped, so only the sentinel itself answers true. *)
Definition is_errNonDeviceEvent (e : error) : bool :=
  match e with
  | errNonDeviceEvent => true
  | _ => false
  end.

(** What one [ReadMsg] call on the socket produces. *)
Inductive readResult : Type :=
| Datagram (buf : list byte)
| ReadError (description : string).

Section Listener.

(** Package [udev] is outside the embedded sources: its data type and its
    two readers are parameters.  A reader answers with data or with the
    description of its error. *)
Variable Data : Type.
Variable ReadRunUdevData : Z -> Z -> Data + string.
Variable EventMapToUdevData : gmap string string -> Data + string.

Definition fromUdev (r : Data + string) : result error Data :=
  match r with
  | inl d => Ok d
  | inr description => Err (errOther description)
  end.

Definition parseUdevData (buf : list byte) : result error Data :=
  eventMap <- parse buf ;;
  if String.eqb (index eventMap "SUBSYSTEM") "block" then Err errNonDeviceEvent else
  let action := index eventMap "ACTION" in
  if String.eqb action add || String.eqb action change then
    major <- atoi (index eventMap "MAJOR") ;;
    minor <- atoi (index eventMap "MINOR") ;;
    fromUdev (ReadRunUdevData major minor)
  else if String.eqb action remove then
    fromUdev (EventMapToUdevData eventMap)
  else Err (errInvalidAction action).

(** How one call of [getNextDeviceUEvent] ends.  [Blocked]: the socket
    has no further datagram and the read does not return. *)
Inductive next : Type :=
| Delivered (d : Data)
| Failed (e : error)
| Faulted (f : fault)
| Blocked.

(** The [for] loop of [getNextDeviceUEvent] over the datagrams the socket
    will hand out; the second component is what is left on the socket. *)
Fixpoint getNextDeviceUEvent (sock : list readResult) : next * list readResult :=
  match sock with
  | [] => (Blocked, [])
  | ReadError description :: rest => (Failed (errOther description), rest)
  | Datagram buf :: rest =>
      match parseUdevData buf with
      | Ok udevData => (Delivered udevData, rest)
      | Err err =>
          if is_errNonDeviceEvent err then getNextDeviceUEvent rest
          else (Failed err, rest)
      | Panic f => (Faulted f, rest)
      end
  end.

End Listener.

Arguments fromUdev {Data} r.
Arguments Delivered {Data} d.
Arguments Failed {Data} e.
Arguments Faulted {Data} f.
Arguments Blocked {Data}.
Arguments parseUdevData {Data} ReadRunUdevData EventMapToUdevData buf.
Arguments getNextDeviceUEvent {Data} ReadRunUdevData EventMapToUdevData sock.

(** *** Identity matcher (match.go) *)

Definition isDOSPTType (ptType : string) : bool :=
  String.eqb ptType "dos" || String.eqb ptType "msdos" || String.eqb ptType "mbr".

Definition ptTypeEqual (ptType1 ptType2 : string) : bool :=
  let ptType1 := ToLower ptType1 in
  let ptType2 := ToLower ptType2 in
  if String.eqb ptType1 ptType2 then true
  else if isDOSPTType ptType1 && isDOSPTType ptType2 then true
  else false.

Definition matchFn : Type :=
  sys.Device -> directcsi.DirectCSIDrive -> bool * bool * option error.

Definition partitionNumberMatcher : matchFn := fun device drive =>
  ((directcsi.PartitionNum (directcsi.Status drive) =? sys.Partition device)%Z,
   false, None).

Definition immutablePropertyMatcher (alpha beta : string)
  : bool * bool * option error :=
  let match_ := false in
  let consider := false in
  let err : option error := None in
  if String.eqb alpha "" && String.eqb beta "" then
    (match_, true, err)
  else if String.eqb alpha "" && negb (String.eqb beta "") then
    (match_, consider, err)
  else if negb (String.eqb alpha "") && String.eqb beta "" then
    (match_, true, err)
  else if negb (String.eqb alpha "") && negb (String.eqb beta "") then
    if String.eqb alpha beta then (true, consider, err)
    else (match_, consider, err)
  else (match_, consider, err).

Definition fsPropertyMatcher (alpha beta : string)
  : bool * bool * option error :=
  let match_ := false in
  let consider := false in
  let err : option error := None in
  if String.eqb alpha "" && String.eqb beta "" then
    (match_, true, err)
  else if String.eqb alpha "" && negb (String.eqb beta "") then
    (match_, true, err)
  else if negb (String.eqb alpha "") && String.eqb beta "" then
    (match_, true, err)
  else if negb (String.eqb alpha "") && negb (String.eqb beta "") then
    if String.eqb alpha beta then (true, consider, err)
    else (match_, true, err)
  else (match_, consider, err).

Definition sizeMatcher (alpha beta : Z) : bool * bool * option error :=
  let match_ := false in
  let consider := false in
  let err : option error := None in
  if (alpha =? 0)%Z && (beta =? 0)%Z then
    (match_, true, err)
  else if (alpha =? 0)%Z && negb (beta =? 0)%Z then
    (match_, true, err)
  else if negb (alpha =? 0)%Z && (beta =? 0)%Z then
    (match_, true, err)
  else if negb (alpha =? 0)%Z && negb (beta =? 0)%Z then
    if (alpha =? beta)%Z then (true, consider, err)
    else (match_, true, err)
  else (match_, consider, err).

Definition ueventSerialNumberMatcher : matchFn := fun device drive =>
  immutablePropertyMatcher (sys.UeventSerial device)
    (directcsi.UeventSerial (directcsi.Status drive)).

Definition wwidMatcher : matchFn := fun device drive =>
  immutablePropertyMatcher (sys.WWID device)
    (directcsi.WWID (directcsi.Status drive)).

Definition modelNumberMatcher : matchFn := fun device drive =>
  immutablePropertyMatcher (sys.Model device)
    (directcsi.ModelNumber (directcsi.Status drive)).

Definition vendorMatcher : matchFn := fun device drive =>
  immutablePropertyMatcher (sys.Vendor device)
    (directcsi.Vendor (directcsi.Status drive)).

Definition partitionUUIDMatcher : matchFn := fun device drive =>
  immutablePropertyMatcher (sys.PartUUID device)
    (directcsi.PartitionUUID (directcsi.Status drive)).

Definition dmUUIDMatcher : matchFn := fun device drive =>
  immutablePropertyMatcher (sys.DMUUID device)
    (directcsi.DMUUID (directcsi.Status drive)).

Definition mdUUIDMatcher : matchFn := fun device drive =>
  immutablePropertyMatcher (sys.MDUUID device)
    (directcsi.MDUUID (directcsi.Status drive)).

Definition serialNumberMatcher : matchFn := fun device drive =>
  immutablePropertyMatcher (sys.Serial device)
    (directcsi.SerialNumber (directcsi.Status drive)).

Definition ueventFSUUIDMatcher : matchFn := fun device drive =>
  fsPropertyMatcher (sys.UeventFSUUID device)
    (directcsi.UeventFSUUID (directcsi.Status drive)).

Definition fsUUIDMatcher : matchFn := fun device drive =>
  fsPropertyMatcher (sys.FSUUID device)
    (directcsi.FilesystemUUID (directcsi.Status drive)).

Definition logicalBlocksizeMatcher : matchFn := fun device drive =>
  sizeMatcher (wrap_int64 (sys.LogicalBlockSize device))
    (directcsi.LogicalBlockSize (directcsi.Status drive)).

Definition matchers : list matchFn :=
  [ partitionNumberMatcher;
    ueventSerialNumberMatcher;
    wwidMatcher;
    modelNumberMatcher;
    vendorMatcher;
    partitionUUIDMatcher;
    dmUUIDMatcher;
    mdUUIDMatcher;
    ueventFSUUIDMatcher;
    fsUUIDMatcher;
    serialNumberMatcher;
    logicalBlocksizeMatcher ].

(** The inner loop of [getMatchingDrives] for one drive: the matchers
    still to run, the matched drives so far and [matchedFn]. *)
Fixpoint runMatchFns (device : sys.Device) (drive : directcsi.DrivePtr)
    (fns : list matchFn) (matchedDrives : list directcsi.DrivePtr)
    (matchedFn : list matchFn)
  : list directcsi.DrivePtr * list matchFn :=
  match fns with
  | [] => (matchedDrives, matchedFn)
  | fn :: fns' =>
      let '(match_, cont, _) := fn device (directcsi.deref drive) in
      if cont then runMatchFns device drive fns' matchedDrives matchedFn
      else
        let matchedDrives :=
          if match_ then (matchedDrives ++ [drive])%list else matchedDrives in
        (matchedDrives, (matchedFn ++ [fn])%list)
  end.

(** The outer loop, from the current values of the two named results;
    [fns] is the package variable [matchers]. *)
Fixpoint getMatchingDrivesFrom (fns : list matchFn) (device : sys.Device)
    (drives : list directcsi.DrivePtr)
    (matchedDrives : list directcsi.DrivePtr)
    (matchList : option (gmap positive (list matchFn)))
  : result error (list directcsi.DrivePtr * option (gmap positive (list matchFn))) :=
  match drives with
  | [] => Ok (matchedDrives, matchList)
  | drive :: drives' =>
      let '(matchedDrives, matchedFn) :=
        runMatchFns device drive fns matchedDrives [] in
      matchList <- map_assign matchList (directcsi.addr drive) matchedFn ;;
      getMatchingDrivesFrom fns device drives' matchedDrives matchList
  end.

(** The named results [matchedDrives] and [matchList] start at their zero
    values: a nil slice and a nil map. *)
Definition getMatchingDrives (device : sys.Device)
    (drives : list directcsi.DrivePtr) :=
  getMatchingDrivesFrom matchers device drives [] None.

Definition runMatcher (device : sys.Device) (drives : list directcsi.DrivePtr)
  : result error directcsi.DrivePtr :=
  r <- getMatchingDrives device drives ;;
  match fst r with
  | [drive] => Ok drive
  | [] => Err errNoMatchFound
  | _ => Err (errTooManyMatches (sys.Name device))
  end.

(** The classification a matcher result stands for in
    [getMatchingDrives]: [cont] moves on to the next matcher, otherwise
    the drive is settled as matched or not. *)
Inductive MatchOutcome : Type :=
| Match
| NoMatch
| Inconclusive.

Definition outcome (r : bool * bool * option error) : MatchOutcome :=
  let '(match_, cont, _) := r in
  if cont then Inconclusive else if match_ then Match else NoMatch.

(** The decision table of the specification (section 4.4), to compare
    the matchers with: inconclusive when either value is empty, otherwise
    match or no-match by equality. *)
Definition decisionTable (alpha beta : string) : MatchOutcome :=
  if String.eqb alpha "" || String.eqb beta "" then Inconclusive
  else if String.eqb alpha beta then Match else NoMatch.

(** What the hardware property matchers decide, by the value recorded on
    the Drive and the value observed on the Device. *)
Definition hardwareTable (recorded observed : string) : MatchOutcome :=
  if String.eqb recorded "" then Inconclusive
  else if String.eqb observed recorded then Match else NoMatch.

(** What the filesystem property matchers decide. *)
Definition filesystemTable (recorded observed : string) : MatchOutcome :=
  if negb (String.eqb recorded "") && String.eqb observed recorded
  then Match else Inconclusive.

(** What the block size matcher decides, zero standing for unknown. *)
Definition sizeTable (recorded observed : Z) : MatchOutcome :=
  if negb (recorded =? 0)%Z && (observed =? recorded)%Z
  then Match else Inconclusive.

End uevent.

(** ** The resource store *)

Module client.

(** Modelled from the spec: the cluster resource store (section 6,
    "Get/List/Update for Drive and Volume records") is consumed by the
    sources but implemented outside them.  The store holds the records by
    name; [calls] lists the [Update] requests issued so far, newest
    first.  There is one writer, so an update of an existing record goes
    through and an update of a missing one is refused. *)
Inductive request : Type :=
| UpdateDriveReq (drive : directcsi.DirectCSIDrive)
| UpdateVolumeReq (volume : directcsi.Vol.DirectCSIVolume).

Record Store : Type := {
  drives : gmap string directcsi.DirectCSIDrive;
  volumes : gmap string directcsi.Vol.DirectCSIVolume;
  calls : list request
}.

Inductive error : Type :=
| errNotFound (name : string).

Definition GetDrive (st : Store) (name : string)
  : directcsi.DirectCSIDrive + error :=
  match drives st !! name with
  | Some d => inl d
  | None => inr (errNotFound name)
  end.

Definition UpdateDrive (st : Store) (drive : directcsi.DirectCSIDrive)
  : Store * option error :=
  let calls' := UpdateDriveReq drive :: calls st in
  match drives st !! directcsi.Name drive with
  | Some _ =>
      ({| drives := <[directcsi.Name drive := drive]> (drives st);
          volumes := volumes st;
          calls := calls' |}, None)
  | None =>
      ({| drives := drives st; volumes := volumes st; calls := calls' |},
       Some (errNotFound (directcsi.Name drive)))
  end.

Definition UpdateVolume (st : Store) (volume : directcsi.Vol.DirectCSIVolume)
  : Store * option error :=
  let calls' := UpdateVolumeReq volume :: calls st in
  match volumes st !! directcsi.Vol.Name volume with
  | Some _ =>
      ({| drives := drives st;
          volumes := <[directcsi.Vol.Name volume := volume]> (volumes st);
          calls := calls' |}, None)
  | None =>
      ({| drives := drives st; volumes := volumes st; calls := calls' |},
       Some (errNotFound (directcsi.Vol.Name volume)))
  end.

End client.

(** ** Package node: drive reconciliation *)

Module node.

Import Go directcsi.

Section Reconcile.

(** Declared in packages outside the embedded sources. *)
Variable FSTypeEqual : string -> string -> bool.     (* sys.FSTypeEqual *)
Variable NewDriveStatus : sys.Device -> DriveStatus. (* client.NewDriveStatus *)
Variable MountRoot : string.                         (* sys.MountRoot *)
Variable Join : string -> string -> string.          (* filepath.Join *)
Variable SanitizeDrivePath : string -> string.       (* utils.SanitizeDrivePath *)
Variable DriveLabelKey : string.                     (* utils.DriveLabelKey *)
Variable DirectCSIDriveFinalizerPrefix : string.     (* directcsi *)
Variable MinSupportedDeviceSize : Z.                 (* sys.MinSupportedDeviceSize *)

(** The handler's fields. *)
Variable nodeID : string.
Variable topology : option (gmap string string).

Definition isActive (s : DriveStatus) : bool :=
  match s with
  | DriveStatusInUse | DriveStatusReady | DriveStatusTerminating => true
  | _ => false
  end.

(** The field by field comparison of [update] (uevent.go), one group of
    bindings per [if] block of the source and in its order: [changed] is
    the condition of the block, and each variable the block assigns gets
    its new value when [changed] holds and keeps its value otherwise.
    The result is the drive as the blocks leave it and the flags
    [updated] and [nameChanged]. *)
Definition updateFields (device : sys.Device) (drive : DirectCSIDrive)
  : DirectCSIDrive * bool * bool :=
  let st := Status drive in
  let updated := false in
  let nameChanged := false in
  let fsUUIDChanged := false in
  let changed := negb (FSTypeEqual (Filesystem st) (sys.FSType device)) in
  let Filesystem' := if changed then sys.FSType device else Filesystem st in
  let updated := if changed then true else updated in
  let changed := negb (TotalCapacity st =? wrap_int64 (sys.Size device))%Z in
  let TotalCapacity' :=
    if changed then wrap_int64 (sys.Size device) else TotalCapacity st in
  let AllocatedCapacity' :=
    if changed then
      if (TotalCapacity' <? AllocatedCapacity st)%Z then TotalCapacity'
      else AllocatedCapacity st
    else AllocatedCapacity st in
  let FreeCapacity' :=
    if changed then wrap_int64 (TotalCapacity' - AllocatedCapacity')
    else FreeCapacity st in
  let updated := if changed then true else updated in
  let changed :=
    negb (LogicalBlockSize st =? wrap_int64 (sys.LogicalBlockSize device))%Z in
  let LogicalBlockSize' :=
    if changed then wrap_int64 (sys.LogicalBlockSize device) else LogicalBlockSize st in
  let updated := if changed then true else updated in
  let changed := negb (String.eqb (ModelNumber st) (sys.Model device)) in
  let ModelNumber' := if changed then sys.Model device else ModelNumber st in
  let updated := if changed then true else updated in
  let changed := negb (PartitionNum st =? sys.Partition device)%Z in
  let PartitionNum' :=
    if changed then sys.Partition device else PartitionNum st in
  let updated := if changed then true else updated in
  let changed := negb (String.eqb (Path st) ("/dev/" ++ sys.Name device)) in
  let Path' := if changed then "/dev/" ++ sys.Name device else Path st in
  let Labels' :=
    if changed then
      Some (<[DriveLabelKey := SanitizeDrivePath (sys.Name device)]>
              (default ∅ (Labels drive)))
    else Labels drive in
  let nameChanged := if changed then true else nameChanged in
  let updated := if changed then true else updated in
  let changed :=
    negb (PhysicalBlockSize st =? wrap_int64 (sys.PhysicalBlockSize device))%Z in
  let PhysicalBlockSize' :=
    if changed then wrap_int64 (sys.PhysicalBlockSize device) else PhysicalBlockSize st in
  let updated := if changed then true else updated in
  let changed := negb (String.eqb (RootPartition st) (sys.Name device)) in
  let RootPartition' := if changed then sys.Name device else RootPartition st in
  let updated := if changed then true else updated in
  let changed := negb (String.eqb (SerialNumber st) (sys.Serial device)) in
  let SerialNumber' := if changed then sys.Serial device else SerialNumber st in
  let updated := if changed then true else updated in
  let changed := negb (String.eqb (FilesystemUUID st) (sys.FSUUID device)) in
  let FilesystemUUID' :=
    if changed then sys.FSUUID device else FilesystemUUID st in
  let updated := if changed then true else updated in
  let fsUUIDChanged := if changed then true else fsUUIDChanged in
  let changed := negb (String.eqb (PartitionUUID st) (sys.PartUUID device)) in
  let PartitionUUID' :=
    if changed then sys.PartUUID device else PartitionUUID st in
  let updated := if changed then true else updated in
  let changed := negb (MajorNumber st =? wrap_uint32 (sys.Major device))%Z in
  let MajorNumber' :=
    if changed then wrap_uint32 (sys.Major device) else MajorNumber st in
  let updated := if changed then true else updated in
  let changed := negb (MinorNumber st =? wrap_uint32 (sys.Minor device))%Z in
  let MinorNumber' :=
    if changed then wrap_uint32 (sys.Minor device) else MinorNumber st in
  let updated := if changed then true else updated in
  let changed :=
    negb (String.eqb (UeventSerial st) (sys.UeventSerial device)) in
  let UeventSerial' :=
    if changed then sys.UeventSerial device else UeventSerial st in
  let updated := if changed then true else updated in
  let changed :=
    negb (String.eqb (UeventFSUUID st) (sys.UeventFSUUID device)) in
  let UeventFSUUID' :=
    if changed then sys.UeventFSUUID device else UeventFSUUID st in
  let updated := if changed then true else updated in
  let fsUUIDChanged := if changed then true else fsUUIDChanged in
  let changed := negb (String.eqb (WWID st) (sys.WWID device)) in
  let WWID' := if changed then sys.WWID device else WWID st in
  let updated := if changed then true else updated in
  let changed := negb (String.eqb (Vendor st) (sys.Vendor device)) in
  let Vendor' := if changed then sys.Vendor device else Vendor st in
  let updated := if changed then true else updated in
  let changed := negb (String.eqb (DMName st) (sys.DMName device)) in
  let DMName' := if changed then sys.DMName device else DMName st in
  let updated := if changed then true else updated in
  let changed := negb (String.eqb (DMUUID st) (sys.DMUUID device)) in
  let DMUUID' := if changed then sys.DMUUID device else DMUUID st in
  let updated := if changed then true else updated in
  let changed := negb (String.eqb (MDUUID st) (sys.MDUUID device)) in
  let MDUUID' := if changed then sys.MDUUID device else MDUUID st in
  let updated := if changed then true else updated in
  let changed := negb (String.eqb (PartTableUUID st) (sys.PTUUID device)) in
  let PartTableUUID' :=
    if changed then sys.PTUUID device else PartTableUUID st in
  let updated := if changed then true else updated in
  let changed :=
    negb (uevent.ptTypeEqual (PartTableType st) (sys.PTType device)) in
  let PartTableType' :=
    if changed then sys.PTType device else PartTableType st in
  let updated := if changed then true else updated in
  let changed := negb (Bool.eqb (Virtual st) (sys.Virtual device)) in
  let Virtual' := if changed then sys.Virtual device else Virtual st in
  let updated := if changed then true else updated in
  let changed := negb (Bool.eqb (ReadOnly st) (sys.ReadOnly device)) in
  let ReadOnly' := if changed then sys.ReadOnly device else ReadOnly st in
  let updated := if changed then true else updated in
  let changed := negb (Bool.eqb (Partitioned st) (sys.Partitioned device)) in
  let Partitioned' :=
    if changed then sys.Partitioned device else Partitioned st in
  let updated := if changed then true else updated in
  let changed := negb (Bool.eqb (SwapOn st) (sys.SwapOn device)) in
  let SwapOn' := if changed then sys.SwapOn device else SwapOn st in
  let updated := if changed then true else updated in
  let changed := negb (String.eqb (Master st) (sys.Master device)) in
  let Master' := if changed then sys.Master device else Master st in
  let updated := if changed then true else updated in
  let changed :=
    match Status_DriveStatus st with
    | DriveStatusInUse | DriveStatusReady | DriveStatusTerminating =>
        if fsUUIDChanged then false
        else if negb (String.eqb (sys.FirstMountPoint device) "")
                && negb (String.eqb (Mountpoint st) (sys.FirstMountPoint device))
        then
          if negb (String.eqb (sys.FirstMountPoint device)
                              (Join MountRoot FilesystemUUID'))
          then false else true
        else false
    | DriveStatusAvailable | DriveStatusUnavailable =>
        negb (String.eqb (Mountpoint st) (sys.FirstMountPoint device))
    end in
  let Mountpoint' :=
    if changed then sys.FirstMountPoint device else Mountpoint st in
  let MountOptions' :=
    if changed then sys.FirstMountOptions device else MountOptions st in
  let updated := if changed then true else updated in
  let driveStatus := NewDriveStatus device in
  let changed :=
    if negb (DriveStatus_eqb driveStatus (Status_DriveStatus st)) then
      match Status_DriveStatus st with
      | DriveStatusInUse | DriveStatusReady | DriveStatusTerminating => false
      | _ => true
      end
    else false in
  let DriveStatus' := if changed then driveStatus else Status_DriveStatus st in
  let updated := if changed then true else updated in
  ({| Name := Name drive;
      Labels := Labels';
      Finalizers := Finalizers drive;
      Status := {|
        Path := Path';
        AllocatedCapacity := AllocatedCapacity';
        FreeCapacity := FreeCapacity';
        RootPartition := RootPartition';
        PartitionNum := PartitionNum';
        Filesystem := Filesystem';
        Mountpoint := Mountpoint';
        MountOptions := MountOptions';
        NodeName := NodeName st;
        Status_DriveStatus := DriveStatus';
        ModelNumber := ModelNumber';
        SerialNumber := SerialNumber';
        TotalCapacity := TotalCapacity';
        PhysicalBlockSize := PhysicalBlockSize';
        LogicalBlockSize := LogicalBlockSize';
        Topology := Topology st;
        FilesystemUUID := FilesystemUUID';
        PartitionUUID := PartitionUUID';
        MajorNumber := MajorNumber';
        MinorNumber := MinorNumber';
        UeventSerial := UeventSerial';
        UeventFSUUID := UeventFSUUID';
        WWID := WWID';
        Vendor := Vendor';
        DMName := DMName';
        DMUUID := DMUUID';
        MDUUID := MDUUID';
        PartTableUUID := PartTableUUID';
        PartTableType := PartTableType';
        Virtual := Virtual';
        ReadOnly := ReadOnly';
        Partitioned := Partitioned';
        SwapOn := SwapOn';
        Master := Master' |} |},
   updated, nameChanged).

(** The Device report shows no difference to the Drive record in any of
    the fields [update] compares before it turns to the mount point and
    the drive status. *)
Definition agrees (device : sys.Device) (drive : DirectCSIDrive) : Prop :=
  let st := Status drive in
  FSTypeEqual (Filesystem st) (sys.FSType device) = true
  /\ TotalCapacity st = wrap_int64 (sys.Size device)
  /\ LogicalBlockSize st = wrap_int64 (sys.LogicalBlockSize device)
  /\ ModelNumber st = sys.Model device
  /\ PartitionNum st = sys.Partition device
  /\ Path st = "/dev/" ++ sys.Name device
  /\ PhysicalBlockSize st = wrap_int64 (sys.PhysicalBlockSize device)
  /\ RootPartition st = sys.Name device
  /\ SerialNumber st = sys.Serial device
  /\ FilesystemUUID st = sys.FSUUID device
  /\ PartitionUUID st = sys.PartUUID device
  /\ MajorNumber st = wrap_uint32 (sys.Major device)
  /\ MinorNumber st = wrap_uint32 (sys.Minor device)
  /\ UeventSerial st = sys.UeventSerial device
  /\ UeventFSUUID st = sys.UeventFSUUID device
  /\ WWID st = sys.WWID device
  /\ Vendor st = sys.Vendor device
  /\ DMName st = sys.DMName device
  /\ DMUUID st = sys.DMUUID device
  /\ MDUUID st = sys.MDUUID device
  /\ PartTableUUID st = sys.PTUUID device
  /\ uevent.ptTypeEqual (PartTableType st) (sys.PTType device) = true
  /\ Virtual st = sys.Virtual device
  /\ ReadOnly st = sys.ReadOnly device
  /\ Partitioned st = sys.Partitioned device
  /\ SwapOn st = sys.SwapOn device
  /\ Master st = sys.Master device.

(** The label synchronisations [update] starts with [go func() {...}()],
    one per finalizer that carries the volume prefix: the volume name and
    the label value it is to receive.  They run concurrently with the
    caller and are recorded, not executed. *)
Fixpoint labelSyncs (drive : DirectCSIDrive) (finalizers : list string)
  : list (string * string) :=
  match finalizers with
  | [] => []
  | finalizer :: rest =>
      if negb (HasPrefixS finalizer DirectCSIDriveFinalizerPrefix)
      then labelSyncs drive rest
      else (TrimPrefix finalizer DirectCSIDriveFinalizerPrefix,
            SanitizeDrivePath (Path (Status drive))) :: labelSyncs drive rest
  end.

(** [update]: the store after the call, the drive as mutated through the
    pointer, the goroutines started, and the returned error. *)
Definition update (store : client.Store) (device : sys.Device)
    (drive : DirectCSIDrive)
  : client.Store * DirectCSIDrive * list (string * string) * option client.error :=
  let '(drive, updated, nameChanged) := updateFields device drive in
  if negb updated then (store, drive, [], None) else
  let '(store, err) := client.UpdateDrive store drive in
  match err with
  | Some e => (store, drive, [], Some e)
  | None =>
      if negb nameChanged then (store, drive, [], None)
      else (store, drive, labelSyncs drive (Finalizers drive), None)
  end.

(** [isDirectCSIMount] (sync path) *)
Definition isDirectCSIMount (mountPoints : list string) : bool :=
  match mountPoints with
  | [] => true
  | _ => existsb (fun mountPoint => HasPrefixS mountPoint "/var/lib/direct-csi/")
           mountPoints
  end.

(** [syncDriveStates] (sync path): works on a deep copy of the drive. *)
Definition syncDriveStates (device : sys.Device) (drive : DirectCSIDrive)
  : DirectCSIDrive :=
  let st := Status drive in
  let ModelNumber' :=
    if String.eqb (ModelNumber st) "" then sys.Model device else ModelNumber st in
  let SerialNumber' :=
    if String.eqb (SerialNumber st) "" then sys.Serial device else SerialNumber st in
  let UeventSerial' :=
    if String.eqb (UeventSerial st) "" then sys.UeventSerial device
    else UeventSerial st in
  let WWID' :=
    if String.eqb (WWID st) "" then sys.WWID device else WWID st in
  let Vendor' :=
    if String.eqb (Vendor st) "" then sys.Vendor device else Vendor st in
  let DriveStatus' :=
    if (sys.Size device <? MinSupportedDeviceSize)%Z || sys.ReadOnly device
       || sys.Partitioned device || sys.SwapOn device
       || negb (String.eqb (sys.Master device) "")
       || negb (isDirectCSIMount (sys.MountPoints device))
    then DriveStatusUnavailable else DriveStatusAvailable in
  let TotalCapacity' := wrap_int64 (sys.Size device) in
  let AllocatedCapacity' :=
    if DriveStatus_eqb DriveStatus' DriveStatusInUse then AllocatedCapacity st
    else wrap_int64 (sys.Size device - sys.FreeCapacity device) in
  {| Name := Name drive;
     Labels := Some (<[DriveLabelKey := SanitizeDrivePath (sys.Name device)]>
                       (default ∅ (Labels drive)));
     Finalizers := Finalizers drive;
     Status := {|
       Path := "/dev/" ++ sys.Name device;
       AllocatedCapacity := AllocatedCapacity';
       FreeCapacity := wrap_int64 (TotalCapacity' - AllocatedCapacity');
       RootPartition := sys.Name device;
       PartitionNum := sys.Partition device;
       Filesystem := sys.FSType device;
       Mountpoint := sys.FirstMountPoint device;
       MountOptions := sys.FirstMountOptions device;
       NodeName := nodeID;
       Status_DriveStatus := DriveStatus';
       ModelNumber := ModelNumber';
       SerialNumber := SerialNumber';
       TotalCapacity := TotalCapacity';
       PhysicalBlockSize := wrap_int64 (sys.PhysicalBlockSize device);
       LogicalBlockSize := wrap_int64 (sys.LogicalBlockSize device);
       Topology := topology;
       FilesystemUUID := sys.FSUUID device;
       PartitionUUID := sys.PartUUID device;
       MajorNumber := wrap_uint32 (sys.Major device);
       MinorNumber := wrap_uint32 (sys.Minor device);
       UeventSerial := UeventSerial';
       UeventFSUUID := sys.UeventFSUUID device;
       WWID := WWID';
       Vendor := Vendor';
       DMName := sys.DMName device;
       DMUUID := sys.DMUUID device;
       MDUUID := sys.MDUUID device;
       PartTableUUID := sys.PTUUID device;
       PartTableType := sys.PTType device;
       Virtual := sys.Virtual device;
       ReadOnly := sys.ReadOnly device;
       Partitioned := sys.Partitioned device;
       SwapOn := sys.SwapOn device;
       Master := sys.Master device |} |}.

End Reconcile.

End node.

(** ** Package volume: volume teardown *)

Module volume.

Import Go directcsi.

Inductive error : Type :=
| errWaitingForRelease   (* "waiting for volume to be released before cleaning up" *)
| errStore (e : client.error)
| errOS (description : string).

Definition excludeFinalizer (finalizers : list string) (finalizer : string)
  : list string * bool :=
  fold_left
    (fun '(result, found) f =>
       if negb (String.eqb f finalizer) then ((result ++ [f])%list, found)
       else (result, true))
    finalizers ([], false).

(** The test [f != finalizer] of its loop. *)
Definition isNot (finalizer f : string) : bool := negb (String.eqb f finalizer).

(** [t.IsZero()] on a [*metav1.Time]: nil, or the zero instant. *)
Definition IsZero (t : option Z) : bool :=
  match t with
  | None => true
  | Some z => (z =? 0)%Z
  end.

Definition ConditionStatus_eqb (a b : Vol.ConditionStatus) : bool :=
  match a, b with
  | Vol.ConditionTrue, Vol.ConditionTrue
  | Vol.ConditionFalse, Vol.ConditionFalse
  | Vol.ConditionUnknown, Vol.ConditionUnknown => true
  | _, _ => false
  end.

(** The drive as [releaseVolume] leaves it in memory before the update. *)
Definition released (drive : DirectCSIDrive) (finalizers : list string)
    (driveStatus : DriveStatus) (free allocated : Z) : DirectCSIDrive :=
  let st := Status drive in
  {| Name := Name drive;
     Labels := Labels drive;
     Finalizers := finalizers;
     Status := {|
       Path := Path st;
       AllocatedCapacity := allocated;
       FreeCapacity := free;
       RootPartition := RootPartition st;
       PartitionNum := PartitionNum st;
       Filesystem := Filesystem st;
       Mountpoint := Mountpoint st;
       MountOptions := MountOptions st;
       NodeName := NodeName st;
       Status_DriveStatus := driveStatus;
       ModelNumber := ModelNumber st;
       SerialNumber := SerialNumber st;
       TotalCapacity := TotalCapacity st;
       PhysicalBlockSize := PhysicalBlockSize st;
       LogicalBlockSize := LogicalBlockSize st;
       Topology := Topology st;
       FilesystemUUID := FilesystemUUID st;
       PartitionUUID := PartitionUUID st;
       MajorNumber := MajorNumber st;
       MinorNumber := MinorNumber st;
       UeventSerial := UeventSerial st;
       UeventFSUUID := UeventFSUUID st;
       WWID := WWID st;
       Vendor := Vendor st;
       DMName := DMName st;
       DMUUID := DMUUID st;
       MDUUID := MDUUID st;
       PartTableUUID := PartTableUUID st;
       PartTableType := PartTableType st;
       Virtual := Virtual st;
       ReadOnly := ReadOnly st;
       Partitioned := Partitioned st;
       SwapOn := SwapOn st;
       Master := Master st |} |}.

Section Teardown.

(** Constants of package [directcsi], declared outside the embedded
    sources. *)
Variable DirectCSIDriveFinalizerPrefix : string.
Variable DirectCSIDriveFinalizerDataProtection : string.
Variable DirectCSIVolumeFinalizerPurgeProtection : string.
Variable DirectCSIVolumeConditionPublished : string.

(** The host file system and [os.RemoveAll] on it; a failure carries its
    description. *)
Variable Host : Type.
Variable RemoveAll : string -> Host -> Host * option string.

Definition releaseVolume (store : client.Store) (driveName volumeName : string)
    (capacity : Z) : client.Store * option client.error :=
  match client.GetDrive store driveName with
  | inr err => (store, Some err)
  | inl drive =>
      let '(finalizers, found) :=
        excludeFinalizer (Finalizers drive)
          (DirectCSIDriveFinalizerPrefix ++ volumeName) in
      if found then
        let driveStatus :=
          match finalizers with
          | [f] =>
              if String.eqb f DirectCSIDriveFinalizerDataProtection
              then DriveStatusReady else Status_DriveStatus (Status drive)
          | _ => Status_DriveStatus (Status drive)
          end in
        let free := wrap_int64 (FreeCapacity (Status drive) + capacity) in
        let allocated := wrap_int64 (TotalCapacity (Status drive) - free) in
        client.UpdateDrive store
          (released drive finalizers driveStatus free allocated)
      else (store, None)
  end.

(** The loop over [volume.Status.Conditions] in [remove]. *)
Definition isPublished (conditions : list Vol.Condition) : bool :=
  existsb
    (fun condition =>
       String.eqb (Vol.Type_ condition) DirectCSIVolumeConditionPublished
       && ConditionStatus_eqb (Vol.CStatus condition) Vol.ConditionTrue)
    conditions.

(** [remove]: the store and the host after the call, the volume as
    mutated through the pointer, and the returned error. *)
Definition remove (store : client.Store) (host : Host)
    (volume : Vol.DirectCSIVolume)
  : client.Store * Host * Vol.DirectCSIVolume * option error :=
  if IsZero (Vol.DeletionTimestamp volume) then (store, host, volume, None) else
  if isPublished (Vol.Conditions (Vol.Status volume))
  then (store, host, volume, Some errWaitingForRelease) else
  let '(host, err) := RemoveAll (Vol.HostPath (Vol.Status volume)) host in
  match err with
  | Some description => (store, host, volume, Some (errOS description))
  | None =>
      let '(store, err) :=
        releaseVolume store (Vol.Drive (Vol.Status volume)) (Vol.Name volume)
          (Vol.TotalCapacity (Vol.Status volume)) in
      match err with
      | Some e => (store, host, volume, Some (errStore e))
      | None =>
          let '(finalizers, _) :=
            excludeFinalizer (Vol.Finalizers volume)
              DirectCSIVolumeFinalizerPurgeProtection in
          let volume :=
            {| Vol.Name := Vol.Name volume;
               Vol.DeletionTimestamp := Vol.DeletionTimestamp volume;
               Vol.Finalizers := finalizers;
               Vol.Status := Vol.Status volume |} in
          let '(store, err) := client.UpdateVolume store volume in
          (store, host, volume, option_map errStore err)
      end
  end.

End Teardown.

End volume.

(** ** Sample records *)

Module Examples.

Import directcsi.

(** A whole-disk device with the given identity. *)
Definition device (name model wwid fsuuid mountpoint : string) : sys.Device :=
  {| sys.Name := name; sys.Major := 8; sys.Minor := 16;
     sys.Size := 104857600; sys.Partition := 0;
     sys.LogicalBlockSize := 512; sys.PhysicalBlockSize := 4096;
     sys.Model := model; sys.Vendor := ""; sys.Serial := "";
     sys.UeventSerial := ""; sys.WWID := wwid;
     sys.FSType := "xfs"; sys.FSUUID := fsuuid; sys.UeventFSUUID := fsuuid;
     sys.PartUUID := ""; sys.PTUUID := ""; sys.PTType := "";
     sys.DMName := ""; sys.DMUUID := ""; sys.MDUUID := "";
     sys.Virtual := false; sys.ReadOnly := false; sys.Partitioned := false;
     sys.SwapOn := false; sys.Master := "";
     sys.FirstMountPoint := mountpoint; sys.FirstMountOptions := [];
     sys.MountPoints := [mountpoint]; sys.FreeCapacity := 52428800 |}.

(** The status of a drive recorded for such a device. *)
Definition status (path model wwid fsuuid mountpoint : string)
    (driveStatus : DriveStatus) (total allocated : Z) : DirectCSIDriveStatus :=
  {| Path := "/dev/" ++ path; AllocatedCapacity := allocated;
     FreeCapacity := total - allocated; RootPartition := path;
     PartitionNum := 0; Filesystem := "xfs"; Mountpoint := mountpoint;
     MountOptions := []; NodeName := "node-1";
     Status_DriveStatus := driveStatus;
     ModelNumber := model; SerialNumber := "";
     TotalCapacity := total; PhysicalBlockSize := 4096; LogicalBlockSize := 512;
     Topology := None; FilesystemUUID := fsuuid; PartitionUUID := "";
     MajorNumber := 8; MinorNumber := 16; UeventSerial := "";
     UeventFSUUID := fsuuid; WWID := wwid; Vendor := "";
     DMName := ""; DMUUID := ""; MDUUID := "";
     PartTableUUID := ""; PartTableType := "";
     Virtual := false; ReadOnly := false; Partitioned := false;
     SwapOn := false; Master := "" |}.

Definition drive (name : string) (finalizers : list string)
    (st : DirectCSIDriveStatus) : DirectCSIDrive :=
  {| Name := name; Labels := None; Finalizers := finalizers; Status := st |}.

Definition sdb : sys.Device := device "sdb" "M1" "W1" "" "".

(** The same disk reporting another model and WWID. *)
Definition sdbM2 : sys.Device := device "sdb" "M2" "W2" "" "".

(** An in-use disk mounted under the managed mount root, and its drive. *)
Definition mounted : sys.Device :=
  device "sdb" "M1" "W1" "fs-1" "/var/lib/direct-csi/mnt/fs-1".

Definition driveInUse : DirectCSIDrive :=
  drive "D" ["direct.csi.min.io/data-protection"]
    (status "sdb" "M1" "W1" "fs-1" "/var/lib/direct-csi/mnt/fs-1"
       DriveStatusInUse 104857600 52428800).

(** The drive and the volume of the end to end scenario: 100 MiB in
    total, 50 MiB allocated to the volumes V20 and V30. *)
Definition driveD : DirectCSIDrive :=
  drive "D"
    ["direct.csi.min.io/data-protection";
     "direct.csi.min.io.volume/V20";
     "direct.csi.min.io.volume/V30"]
    (status "sdb" "M1" "W1" "fs-1" "/var/lib/direct-csi/mnt/fs-1"
       DriveStatusInUse 104857600 52428800).

Definition storeD : client.Store :=
  {| client.drives := {["D" := driveD]}; client.volumes := ∅;
     client.calls := [] |}.

Definition volumeV20 (published : Vol.ConditionStatus) : Vol.DirectCSIVolume :=
  {| Vol.Name := "V20";
     Vol.DeletionTimestamp := Some 1%Z;
     Vol.Finalizers := ["direct.csi.min.io/purge-protection"];
     Vol.Status :=
       {| Vol.Drive := "D"; Vol.TotalCapacity := 20971520;
          Vol.HostPath := "/var/lib/direct-csi/mnt/fs-1/V20";
          Vol.NodeName := "node-1";
          Vol.Conditions :=
            [ {| Vol.Type_ := "Staged"; Vol.CStatus := Vol.ConditionTrue |};
              {| Vol.Type_ := "Published"; Vol.CStatus := published |} ] |} |}.

Definition emptyStore : client.Store :=
  {| client.drives := ∅; client.volumes := ∅; client.calls := [] |}.

Definition driveW1M1 : DirectCSIDrive :=
  drive "D" [] (status "sdb" "M1" "W1" "" "" DriveStatusAvailable 104857600 0).

(** Two pointers to field for field identical drives. *)
Definition twin1 : DrivePtr := {| addr := 1; deref := driveW1M1 |}.
Definition twin2 : DrivePtr := {| addr := 2; deref := driveW1M1 |}.

(** The 40-byte header of a libudev monitor message: signature, magic in
    network byte order, header size, properties offset (its low byte is
    byte 16), and the remaining header words. *)
Definition header : list byte :=
  (uevent.libudev ++ [xfe; xed; xca; xfe] ++ [x28; x00; x00; x00]
     ++ [x28; x00; x00; x00] ++ repeat x00 20)%list.

Definition properties (fields : list string) : list byte :=
  List.concat (List.map (fun f => (list_byte_of_string f ++ [x00])%list) fields).

Definition blockRemove : list byte :=
  (header ++ properties ["ACTION=remove"; "DEVPATH=/devices/sdb";
                         "SUBSYSTEM=block"; "MAJOR=8"; "MINOR=16"])%list.

Definition netRemove : list byte :=
  (header ++ properties ["ACTION=remove"; "DEVPATH=/devices/eth0";
                         "SUBSYSTEM=net"])%list.

End Examples.

(** * Properties *)

(** ** Fixed-width integers *)

Lemma wrap_int64_id z : Go.in_int64 z -> Go.wrap_int64 z = z.
Proof.
  unfold Go.in_int64, Go.wrap_int64. intros Hz.
  rewrite Z.mod_small by lia. lia.
Qed.

(** ** UUID normalisation *)

Section NormalizeUUID.

Import Go uevent.

Lemma removeByte_app c s t :
  removeByte c (s ++ t) = removeByte c s ++ removeByte c t.
Proof.
  induction s as [|x s IH]; simpl; [reflexivity|].
  destruct (Ascii.eqb x c); simpl; now rewrite IH.
Qed.

Lemma strip_app s t : strip (s ++ t) = strip s ++ strip t.
Proof. unfold strip. now rewrite !removeByte_app. Qed.

Lemma sepFree_strip_id u : sepFree u = true -> strip u = u.
Proof.
  unfold strip. induction u as [|x u IH]; simpl; [reflexivity|].
  intros H. apply andb_prop in H as [H Hu]. apply andb_prop in H as [Hc Hd].
  apply negb_true_iff in Hc, Hd. rewrite Hc. simpl. rewrite Hd.
  now rewrite IH.
Qed.

Lemma strip_sepFree s : sepFree (strip s) = true.
Proof.
  unfold strip. induction s as [|x s IH]; simpl; [reflexivity|].
  destruct (Ascii.eqb x ":") eqn:Hc; [exact IH|]. simpl.
  destruct (Ascii.eqb x "-") eqn:Hd; [exact IH|]. simpl.
  now rewrite Hc, Hd, IH.
Qed.

Lemma sepFree_take n u : sepFree u = true -> sepFree (take n u) = true.
Proof.
  revert u. induction n as [|n IH]; intros [|x u]; simpl; try reflexivity.
  intros H. apply andb_prop in H as [H Hu]. rewrite H. simpl. now apply IH.
Qed.

Lemma sepFree_drop n u : sepFree u = true -> sepFree (drop n u) = true.
Proof.
  revert u. induction n as [|n IH]; intros [|x u]; simpl; try tauto.
  intros H. apply andb_prop in H as [_ Hu]. now apply IH.
Qed.

Lemma take_drop n u : take n u ++ drop n u = u.
Proof.
  revert u. induction n as [|n IH]; intros [|x u]; simpl; try reflexivity.
  change (String x (take n u ++ drop n u) = String x u). now rewrite IH.
Qed.

Lemma drop_drop n m u : drop n (drop m u) = drop (m + n) u.
Proof.
  revert u. induction m as [|m IH]; intros u; simpl; [reflexivity|].
  destruct u as [|x u]; [now destruct n|]. apply IH.
Qed.

Lemma dashed_eq u :
  dashed u =
  take 8 u ++ "-" ++ take 4 (drop 8 u) ++ "-" ++ take 4 (drop 12 u) ++ "-"
    ++ take 4 (drop 16 u) ++ "-" ++ drop 20 u.
Proof. reflexivity. Qed.

Lemma append_empty_l s : "" ++ s = s.
Proof. reflexivity. Qed.

(** Removing the dashes that [dashed] inserted gives the digits back. *)
Lemma strip_dashed u : sepFree u = true -> strip (dashed u) = u.
Proof.
  intros Hu. rewrite dashed_eq, !strip_app.
  change (strip "-") with "". rewrite !append_empty_l.
  rewrite !sepFree_strip_id
    by auto using sepFree_take, sepFree_drop.
  change (drop 20 u) with (drop (16 + 4) u).
  rewrite <- (drop_drop 4 16 u), take_drop.
  change (drop 16 u) with (drop (12 + 4) u).
  rewrite <- (drop_drop 4 12 u), take_drop.
  change (drop 12 u) with (drop (8 + 4) u).
  rewrite <- (drop_drop 4 8 u), take_drop.
  apply take_drop.
Qed.

Lemma normalizeUUID_idempotent uuid :
  normalizeUUID (normalizeUUID uuid) = normalizeUUID uuid.
Proof.
  unfold normalizeUUID at 2 3.
  destruct (20 <? len (strip uuid))%nat eqn:Hlen.
  - unfold normalizeUUID.
    rewrite strip_dashed by apply strip_sepFree. now rewrite Hlen.
  - unfold normalizeUUID. now rewrite Hlen.
Qed.

Lemma strip_cons_keep x s :
  Ascii.eqb x ":" = false -> Ascii.eqb x "-" = false ->
  strip (String x s) = String x (strip s).
Proof. intros H1 H2. unfold strip. simpl. rewrite H1. simpl. now rewrite H2. Qed.

Lemma strip_cons_dash s : strip (String "-" s) = strip s.
Proof. reflexivity. Qed.

Lemma normalizeUUID_normalized s :
  isNormalized s = true -> normalizeUUID s = s.
Proof.
  unfold isNormalized, len. intros H.
  apply andb_prop in H as [Hlen Hg]. apply Nat.eqb_eq in Hlen.
  do 36 (destruct s as [|? s]; [discriminate Hlen|]).
  destruct s; [clear Hlen|discriminate Hlen].
  simpl in Hg.
  repeat match type of Hg with
         | (_ && _ = true) => apply andb_prop in Hg as [? Hg]
         end.
  repeat match goal with
         | H : negb _ && negb _ = true |- _ =>
             let H1 := fresh in let H2 := fresh in
             apply andb_prop in H as [H1 H2];
             apply negb_true_iff in H1, H2
         | H : Ascii.eqb _ "-" = true |- _ =>
             apply Ascii.eqb_eq in H; subst
         end.
  unfold normalizeUUID.
  repeat first [ rewrite strip_cons_dash
               | rewrite strip_cons_keep by assumption ].
  reflexivity.
Qed.

Lemma sepFree_cons x s :
  sepFree (String x s) = true ->
  Ascii.eqb x ":" = false /\ Ascii.eqb x "-" = false /\ sepFree s = true.
Proof.
  simpl. intros H. apply andb_prop in H as [H Hs].
  apply andb_prop in H as [H1 H2]. now apply negb_true_iff in H1, H2.
Qed.

(** A 32-digit value comes out of [dashed] in the 8-4-4-4-12 shape. *)
Lemma dashed_isNormalized u :
  sepFree u = true -> len u = 32%nat -> isNormalized (dashed u) = true.
Proof.
  unfold len. intros Hu Hlen.
  do 32 (destruct u as [|? u]; [discriminate Hlen|]).
  destruct u; [clear Hlen|discriminate Hlen].
  repeat match goal with
         | H : sepFree (String _ _) = true |- _ =>
             apply sepFree_cons in H as (? & ? & H)
         end.
  unfold isNormalized, dashed, slice. simpl.
  repeat match goal with
         | H : Ascii.eqb _ _ = false |- _ => rewrite H; clear H
         end.
  reflexivity.
Qed.

(** C10: [normalizeUUID] is idempotent on every input; a normalised
    36-byte dashed UUID is a fixed point; an input whose stripped form has
    more than 20 bytes is mapped to the dashed grouping of the stripped
    value (the 8-4-4-4-12 shape when it has 32 digits); and an input
    whose stripped form has at most 20 bytes is returned unchanged. *)
Theorem normalizeUUID_idempotent_and_cases :
  (forall uuid, normalizeUUID (normalizeUUID uuid) = normalizeUUID uuid)
  /\ (forall uuid, isNormalized uuid = true -> normalizeUUID uuid = uuid)
  /\ (forall uuid, (20 < len (strip uuid))%nat ->
        let u := strip uuid in
        normalizeUUID uuid =
          slice 0 8 u ++ "-" ++ slice 8 12 u ++ "-" ++ slice 12 16 u ++ "-"
            ++ slice 16 20 u ++ "-" ++ drop 20 u)
  /\ (forall uuid, len (strip uuid) = 32%nat ->
        isNormalized (normalizeUUID uuid) = true)
  /\ (forall uuid, (len (strip uuid) <= 20)%nat -> normalizeUUID uuid = uuid).
Proof.
  repeat split.
  - apply normalizeUUID_idempotent.
  - apply normalizeUUID_normalized.
  - intros uuid H u. subst u. unfold normalizeUUID.
    apply Nat.ltb_lt in H. now rewrite H.
  - intros uuid H. unfold normalizeUUID. rewrite H. simpl.
    apply dashed_isNormalized; [apply strip_sepFree | exact H].
  - intros uuid H. unfold normalizeUUID.
    destruct (Nat.ltb_spec 20 (len (strip uuid))); [lia | reflexivity].
Qed.

Lemma normalizeUUID_idempotent_and_cases_witness :
  normalizeUUID "6e62a0b6-6a5e-4b5c-9d3f-0a1b2c3d4e5f"
    = "6e62a0b6-6a5e-4b5c-9d3f-0a1b2c3d4e5f"
  /\ normalizeUUID "6e62a0b6:6a5e4b5c:9d3f0a1b:2c3d4e5f"
    = "6e62a0b6-6a5e-4b5c-9d3f-0a1b2c3d4e5f"
  /\ isNormalized (normalizeUUID "6e62a0b6:6a5e4b5c:9d3f0a1b:2c3d4e5f") = true
  /\ normalizeUUID "ab:cd-ef" = "ab:cd-ef".
Proof.
  destruct normalizeUUID_idempotent_and_cases as (_ & Hfix & Hlong & Hshape & Hshort).
  split; [apply Hfix; reflexivity|].
  split; [rewrite Hlong; [reflexivity | simpl; lia]|].
  split; [apply Hshape; reflexivity|].
  apply Hshort. simpl. lia.
Defined.

End NormalizeUUID.

(** ** Identity matcher *)

Section Matcher.

Import Go uevent.

Lemma eqb_empty_r (s : string) : String.eqb s "" = false -> s <> "".
Proof. intros H ->. discriminate H. Qed.

Lemma immutablePropertyMatcher_outcome alpha beta :
  outcome (immutablePropertyMatcher alpha beta) = hardwareTable beta alpha.
Proof.
  unfold immutablePropertyMatcher, hardwareTable, outcome.
  destruct alpha as [|a s], beta as [|b t]; try reflexivity.
  change (String.eqb (String a s) "") with false.
  change (String.eqb (String b t) "") with false.
  cbn [negb andb]. now destruct (String.eqb (String a s) (String b t)).
Qed.

Lemma fsPropertyMatcher_outcome alpha beta :
  outcome (fsPropertyMatcher alpha beta) = filesystemTable beta alpha.
Proof.
  unfold fsPropertyMatcher, filesystemTable, outcome.
  destruct alpha as [|a s], beta as [|b t]; try reflexivity.
  change (String.eqb (String a s) "") with false.
  change (String.eqb (String b t) "") with false.
  cbn [negb andb]. now destruct (String.eqb (String a s) (String b t)).
Qed.

Lemma sizeMatcher_outcome alpha beta :
  outcome (sizeMatcher alpha beta) = sizeTable beta alpha.
Proof.
  unfold sizeMatcher, sizeTable, outcome.
  destruct (Z.eqb_spec alpha 0), (Z.eqb_spec beta 0); subst; simpl;
    try reflexivity.
  - destruct beta; [congruence | reflexivity | reflexivity].
  - now destruct (alpha =? beta)%Z.
Qed.

(** C1, as stated, fails for both helper matchers: with an empty first
    value and a non-empty second one the hardware matcher settles on
    no-match where the table says inconclusive, and on two different
    non-empty values the filesystem matcher stays inconclusive where the
    table says no-match. *)
Lemma decisionTable_counterexample :
  outcome (immutablePropertyMatcher "" "W1") = NoMatch
  /\ decisionTable "" "W1" = Inconclusive
  /\ outcome (fsPropertyMatcher "U1" "U2") = Inconclusive
  /\ decisionTable "U1" "U2" = NoMatch
  /\ ~ (forall alpha beta,
          outcome (immutablePropertyMatcher alpha beta) = decisionTable alpha beta)
  /\ ~ (forall alpha beta,
          outcome (fsPropertyMatcher alpha beta) = decisionTable alpha beta).
Proof.
  repeat split.
  - intros H. specialize (H "" "W1"). discriminate H.
  - intros H. specialize (H "U1" "U2"). discriminate H.
Qed.

(** C1, amended: the two helper matchers follow their own tables, and each
    matcher of the ordered list decides as follows.  Hardware properties:
    inconclusive when the Drive records no value, match when the Device
    reports the recorded value, no-match otherwise (also when the Device
    reports none).  Filesystem properties and the logical block size:
    match when a value is recorded and the Device reports the same,
    inconclusive otherwise.  The partition number: always conclusive. *)
Theorem matchers_decide_by_their_tables :
  (forall alpha beta,
      outcome (immutablePropertyMatcher alpha beta) = hardwareTable beta alpha)
  /\ (forall alpha beta,
      outcome (fsPropertyMatcher alpha beta) = filesystemTable beta alpha)
  /\ (forall device drive,
        let st := directcsi.Status drive in
        List.map (fun fn : matchFn => outcome (fn device drive)) matchers =
        [ if (directcsi.PartitionNum st =? sys.Partition device)%Z
          then Match else NoMatch;
          hardwareTable (directcsi.UeventSerial st) (sys.UeventSerial device);
          hardwareTable (directcsi.WWID st) (sys.WWID device);
          hardwareTable (directcsi.ModelNumber st) (sys.Model device);
          hardwareTable (directcsi.Vendor st) (sys.Vendor device);
          hardwareTable (directcsi.PartitionUUID st) (sys.PartUUID device);
          hardwareTable (directcsi.DMUUID st) (sys.DMUUID device);
          hardwareTable (directcsi.MDUUID st) (sys.MDUUID device);
          filesystemTable (directcsi.UeventFSUUID st) (sys.UeventFSUUID device);
          filesystemTable (directcsi.FilesystemUUID st) (sys.FSUUID device);
          hardwareTable (directcsi.SerialNumber st) (sys.Serial device);
          sizeTable (directcsi.LogicalBlockSize st)
            (wrap_int64 (sys.LogicalBlockSize device)) ]).
Proof.
  split; [exact immutablePropertyMatcher_outcome|].
  split; [exact fsPropertyMatcher_outcome|].
  intros device drive st. unfold matchers. cbn [List.map].
  unfold ueventSerialNumberMatcher, wwidMatcher, modelNumberMatcher,
    vendorMatcher, partitionUUIDMatcher, dmUUIDMatcher, mdUUIDMatcher,
    serialNumberMatcher, ueventFSUUIDMatcher, fsUUIDMatcher,
    logicalBlocksizeMatcher.
  rewrite !immutablePropertyMatcher_outcome, !fsPropertyMatcher_outcome,
    sizeMatcher_outcome.
  reflexivity.
Qed.

(** Whatever the matchers are, the first drive ends in the write to the
    nil map. *)
Lemma getMatchingDrivesFrom_nil_map fns device drive drives matchedDrives :
  getMatchingDrivesFrom fns device (drive :: drives) matchedDrives None
  = Panic NilMapWrite.
Proof.
  simpl. now destruct (runMatchFns device drive fns matchedDrives []).
Qed.

(** The first matcher of the list never asks to continue, so it settles
    every drive. *)
Lemma runMatchFns_matchers device drive matchedDrives :
  runMatchFns device drive matchers matchedDrives [] =
  (if (directcsi.PartitionNum (directcsi.Status (directcsi.deref drive))
       =? sys.Partition device)%Z
   then (matchedDrives ++ [drive])%list else matchedDrives,
   [partitionNumberMatcher]).
Proof. reflexivity. Qed.

(** Started on a map that was made, the loop runs to its end and collects
    the drives in their order. *)
Lemma getMatchingDrivesFrom_made_map device drives :
  forall matchedDrives m,
  exists m',
    getMatchingDrivesFrom matchers device drives matchedDrives (Some m) =
    Ok ((matchedDrives ++
         List.filter
           (fun drive =>
              (directcsi.PartitionNum (directcsi.Status (directcsi.deref drive))
               =? sys.Partition device)%Z)
           drives)%list,
        Some m').
Proof.
  induction drives as [|drive drives IH]; intros matchedDrives m.
  - exists m. simpl. now rewrite app_nil_r.
  - cbn [getMatchingDrivesFrom]. rewrite runMatchFns_matchers.
    cbn [map_assign bind List.filter].
    destruct (_ =? _)%Z.
    + destruct (IH (matchedDrives ++ [drive])%list
                  (<[directcsi.addr drive := [partitionNumberMatcher]]> m))
        as [m' ->].
      exists m'. now rewrite <- app_assoc.
    + apply IH.
Qed.

(** C4: on every non-empty list of candidate drives [getMatchingDrives]
    writes into its named result [matchList], a nil map that is never
    made, and panics, whatever the matcher list holds; [runMatcher] panics
    with it.  [getMatchingDrives] returns normally exactly on the empty
    list. *)
Theorem getMatchingDrives_writes_nil_map device drives :
  (drives <> [] ->
   (forall fns,
       getMatchingDrivesFrom fns device drives [] None = Panic NilMapWrite)
   /\ getMatchingDrives device drives = Panic NilMapWrite
   /\ runMatcher device drives = Panic NilMapWrite)
  /\ (drives = [] -> getMatchingDrives device drives = Ok ([], None))
  /\ ((exists r, getMatchingDrives device drives = Ok r) <-> drives = []).
Proof.
  unfold runMatcher, getMatchingDrives.
  destruct drives as [|drive drives].
  - split; [congruence|]. split; [reflexivity|]. split; [reflexivity|].
    intros _. now eexists.
  - rewrite getMatchingDrivesFrom_nil_map.
    split.
    { intros _. split; [|now split].
      intros fns. apply getMatchingDrivesFrom_nil_map. }
    split; [discriminate|].
    split; [intros [r Hr]; discriminate Hr | discriminate].
Qed.

Lemma getMatchingDrives_writes_nil_map_witness :
  [Examples.twin1] <> []
  /\ getMatchingDrives Examples.sdb [Examples.twin1] = Panic NilMapWrite
  /\ runMatcher Examples.sdb [Examples.twin1] = Panic NilMapWrite
  /\ getMatchingDrives Examples.sdb [] = Ok ([], None).
Proof.
  assert (Hne : [Examples.twin1] <> []) by discriminate.
  split; [exact Hne|].
  destruct (getMatchingDrives_writes_nil_map Examples.sdb [Examples.twin1])
    as (Hfault & _ & _).
  destruct (Hfault Hne) as (_ & H1 & H2).
  split; [exact H1|]. split; [exact H2|].
  now apply (getMatchingDrives_writes_nil_map Examples.sdb []).
Defined.

(** C2 at its failing inputs: with exactly one matching candidate, and
    with two field for field identical candidates, [runMatcher] panics on
    the nil map instead of returning the drive or the ambiguity error;
    only the empty candidate list gets its answer.  Had [matchList] been
    made, the same loop would have collected one and two drives. *)
Theorem runMatcher_panics_on_candidates :
  runMatcher Examples.sdb [Examples.twin1] = Panic NilMapWrite
  /\ runMatcher Examples.sdb [Examples.twin1; Examples.twin2] = Panic NilMapWrite
  /\ runMatcher Examples.sdb [] = Err errNoMatchFound
  /\ (exists m,
        getMatchingDrivesFrom matchers Examples.sdb [Examples.twin1] []
          (Some ∅)
        = Ok ([Examples.twin1], m))
  /\ (exists m,
        getMatchingDrivesFrom matchers Examples.sdb
          [Examples.twin1; Examples.twin2] [] (Some ∅)
        = Ok ([Examples.twin1; Examples.twin2], m)).
Proof.
  split; [reflexivity|]. split; [reflexivity|]. split; [reflexivity|].
  split.
  - destruct (getMatchingDrivesFrom_made_map Examples.sdb [Examples.twin1] [] ∅)
      as [m' H].
    exists (Some m'). exact H.
  - destruct (getMatchingDrivesFrom_made_map Examples.sdb
                [Examples.twin1; Examples.twin2] [] ∅) as [m' H].
    exists (Some m'). exact H.
Qed.

End Matcher.

(** ** Wire decoder and listener loop *)

Section Decoder.

Import Go uevent.

Lemma sliceFrom_not_err (n : nat) b (e : error) : sliceFrom n b <> Err e.
Proof. unfold sliceFrom. now destruct (n <=? length b)%nat. Qed.

Lemma BigEndian_Uint32_not_err b (e : error) : BigEndian_Uint32 b <> Err e.
Proof. now destruct b as [|? [|? [|? [|? ?]]]]. Qed.

Lemma at_not_err (i : nat) b (e : error) : at_ i b <> Err e.
Proof. unfold at_. now destruct (List.nth_error b i). Qed.

Ltac case_result r :=
  let H := fresh "H" in
  destruct r eqn:H; cbn [bind];
  [ | solve [ exfalso;
              first [ eapply sliceFrom_not_err; exact H
                    | eapply BigEndian_Uint32_not_err; exact H
                    | eapply at_not_err; exact H ] ]
    | try (let Hx := fresh in intros Hx; discriminate Hx) ].

(** [parse] creates four errors, none of them the non-device signal. *)
Lemma parse_error_kinds msg e :
  parse msg = Err e ->
  e = errSignatureNotFound
  \/ (exists got, e = errMagicMismatch libudevMagic got /\ got <> libudevMagic)
  \/ (exists offset, e = errOffsetNotMoreThan17 offset /\ (offset <= 16)%Z)
  \/ (exists offset,
        e = errOffsetBeyondLength offset (length msg)
        /\ (Z.of_nat (length msg) < offset)%Z).
Proof.
  unfold parse.
  destruct (HasPrefix msg libudev); cbn [negb];
    [|intros [= <-]; now left].
  case_result (@sliceFrom error 8 msg).
  case_result (@BigEndian_Uint32 error a).
  destruct (Z.eqb_spec a0 libudevMagic); cbn [negb];
    [|intros [= <-]; right; left; eauto].
  case_result (@at_ error 16 msg).
  destruct (Z.ltb_spec (byteZ a1) 17);
    [intros [= <-]; right; right; left; eexists; split; [reflexivity|lia]|].
  destruct (Z.ltb_spec (Z.of_nat (length msg)) (byteZ a1));
    [intros [= <-]; right; right; right; eauto|].
  case_result (@sliceFrom error (Z.to_nat (byteZ a1)) msg).
  intros Hx; discriminate Hx.
Qed.

Lemma parse_signature_missing msg :
  HasPrefix msg libudev = false -> parse msg = Err errSignatureNotFound.
Proof. unfold parse. now intros ->. Qed.

(** From 17 bytes on, every index and slice of [parse] is in range. *)
Lemma parse_no_panic_from_17 msg f :
  (17 <= length msg)%nat -> parse msg <> Panic f.
Proof.
  intros Hlen. unfold parse.
  destruct (HasPrefix msg libudev); cbn [negb]; [|discriminate].
  do 17 (destruct msg as [|? msg]; [simpl in Hlen; lia|]).
  cbn [sliceFrom length Nat.leb List.skipn bind BigEndian_Uint32 at_
       List.nth_error].
  destruct (negb _); [discriminate|].
  destruct (_ <? 17)%Z; [discriminate|].
  match goal with |- context [(Z.of_nat ?n <? ?o)%Z] =>
    destruct (Z.ltb_spec (Z.of_nat n) o); [discriminate|]
  end.
  unfold sliceFrom.
  match goal with |- context [(?a <=? ?b)%nat] =>
    destruct (Nat.leb_spec a b); [discriminate|cbn [length] in *; lia]
  end.
Qed.

(** C8 at its failing inputs: a message that is just the signature, or the
    signature and the magic, is below [minMsgLen] and makes [parse] index
    out of range instead of returning an error. *)
Theorem parse_panics_on_short_message :
  parse libudev = Panic IndexOutOfRange
  /\ parse (libudev ++ [xfe; xed; xca; xfe]) = Panic IndexOutOfRange
  /\ parse (List.firstn 16 Examples.header) = Panic IndexOutOfRange
  /\ (length (libudev ++ [xfe; xed; xca; xfe]) < minMsgLen)%nat.
Proof. repeat split. unfold minMsgLen. simpl. lia. Qed.

Section Loop.

Variable Data : Type.
Variable ReadRunUdevData : Z -> Z -> Data + string.
Variable EventMapToUdevData : gmap string string -> Data + string.

Lemma fromUdev_not_signal r : @fromUdev Data r <> Err errNonDeviceEvent.
Proof. now destruct r. Qed.

(** The decoder raises the non-device signal exactly on the events whose
    SUBSYSTEM is "block". *)
Lemma parseUdevData_signal_iff buf :
  parseUdevData ReadRunUdevData EventMapToUdevData buf = Err errNonDeviceEvent
  <-> exists eventMap,
        parse buf = Ok eventMap /\ index eventMap "SUBSYSTEM" = "block".
Proof.
  unfold parseUdevData. split.
  - destruct (parse buf) as [eventMap|e|f] eqn:Hp; cbn [bind].
    + destruct (String.eqb_spec (index eventMap "SUBSYSTEM") "block") as [Hb|Hb];
        [intros _; eauto|].
      destruct (_ || _).
      * unfold atoi. destruct (Atoi (index eventMap "MAJOR")); cbn [bind];
          [|discriminate].
        destruct (Atoi (index eventMap "MINOR")); cbn [bind]; [|discriminate].
        intros H. now apply fromUdev_not_signal in H.
      * destruct (String.eqb _ remove); [|discriminate].
        intros H. now apply fromUdev_not_signal in H.
    + intros [= ->]. apply parse_error_kinds in Hp.
      destruct Hp as [Hp|[[? [Hp _]]|[[? [Hp _]]|[? [Hp _]]]]]; discriminate Hp.
    + discriminate.
  - intros (eventMap & -> & Hb). cbn [bind]. now rewrite Hb.
Qed.

(** The read loop skips a datagram with the signal and goes on reading. *)
Lemma getNextDeviceUEvent_skips buf rest :
  parseUdevData ReadRunUdevData EventMapToUdevData buf
  = Err errNonDeviceEvent ->
  getNextDeviceUEvent ReadRunUdevData EventMapToUdevData
    (Datagram buf :: rest)
  = getNextDeviceUEvent ReadRunUdevData EventMapToUdevData rest.
Proof. intros H. cbn [getNextDeviceUEvent]. now rewrite H. Qed.

(** Any other decode error ends the loop and is returned. *)
Lemma getNextDeviceUEvent_propagates buf rest e :
  parseUdevData ReadRunUdevData EventMapToUdevData buf = Err e ->
  e <> errNonDeviceEvent ->
  getNextDeviceUEvent ReadRunUdevData EventMapToUdevData
    (Datagram buf :: rest)
  = (Failed e, rest).
Proof.
  intros H Hne. cbn [getNextDeviceUEvent]. rewrite H.
  destruct e; try reflexivity. now destruct Hne.
Qed.

(** C3 at its failing input: a well-formed "remove" event for a block
    device gets the non-device signal and is skipped by the read loop,
    while the same event for a network device is decoded. *)
Theorem parseUdevData_drops_block_events :
  (exists eventMap,
      parse Examples.blockRemove = Ok eventMap
      /\ index eventMap "SUBSYSTEM" = "block"
      /\ index eventMap "ACTION" = "remove")
  /\ parseUdevData ReadRunUdevData EventMapToUdevData Examples.blockRemove
     = Err errNonDeviceEvent
  /\ getNextDeviceUEvent ReadRunUdevData EventMapToUdevData
       [Datagram Examples.blockRemove]
     = (Blocked, [])
  /\ (exists eventMap,
        parse Examples.netRemove = Ok eventMap
        /\ index eventMap "SUBSYSTEM" = "net"
        /\ parseUdevData ReadRunUdevData EventMapToUdevData Examples.netRemove
           = fromUdev (EventMapToUdevData eventMap)).
Proof.
  assert (Hb : match parse Examples.blockRemove with
               | Ok m => (index m "SUBSYSTEM", index m "ACTION")
               | _ => ("", "")
               end = ("block", "remove")) by (vm_compute; reflexivity).
  assert (Hn : match parse Examples.netRemove with
               | Ok m => (index m "SUBSYSTEM", index m "ACTION")
               | _ => ("", "")
               end = ("net", "remove")) by (vm_compute; reflexivity).
  destruct (parse Examples.blockRemove) as [mb| |] eqn:Hpb; try discriminate Hb.
  destruct (parse Examples.netRemove) as [mn| |] eqn:Hpn; try discriminate Hn.
  injection Hb as Hb1 Hb2. injection Hn as Hn1 Hn2.
  assert (Hblock : parseUdevData ReadRunUdevData EventMapToUdevData
                     Examples.blockRemove = Err errNonDeviceEvent).
  { apply parseUdevData_signal_iff. now exists mb. }
  split; [now exists mb|].
  split; [exact Hblock|].
  split; [now rewrite getNextDeviceUEvent_skips|].
  exists mn. split; [reflexivity|]. split; [exact Hn1|].
  unfold parseUdevData. rewrite Hpn. cbn [bind].
  rewrite Hn1, Hn2. reflexivity.
Qed.

End Loop.

End Decoder.

(** ** Drive reconciliation *)

Section Reconciliation.

Import Go directcsi node.

Variable FSTypeEqual : string -> string -> bool.
Variable NewDriveStatus : sys.Device -> DriveStatus.
Variable MountRoot : string.
Variable Join : string -> string -> string.
Variable SanitizeDrivePath : string -> string.
Variable DriveLabelKey : string.
Variable DirectCSIDriveFinalizerPrefix : string.
Variable MinSupportedDeviceSize : Z.
Variable nodeID : string.
Variable topology : option (gmap string string).

Lemma updateFields_unchanged device drive :
  agrees FSTypeEqual device drive ->
  Mountpoint (Status drive) = sys.FirstMountPoint device ->
  (isActive (Status_DriveStatus (Status drive)) = true
   \/ NewDriveStatus device = Status_DriveStatus (Status drive)) ->
  updateFields FSTypeEqual NewDriveStatus MountRoot Join SanitizeDrivePath
    DriveLabelKey device drive = (drive, false, false).
Proof.
  intros Hagree Hmount Hstatus.
  destruct drive as [name labels finalizers st]. destruct st.
  unfold agrees in Hagree. cbn in Hagree, Hmount, Hstatus.
  destruct Hagree as
    (Hfs & ? & ? & ? & ? & ? & ? & ? & ? & ? & ? & ? & ? & ? & ? & ? & ? & ?
     & ? & ? & ? & Hpt & ? & ? & ? & ? & ?).
  subst. unfold updateFields.
  cbn [Status Name Labels Finalizers Path AllocatedCapacity FreeCapacity
       RootPartition PartitionNum Filesystem Mountpoint MountOptions NodeName
       Status_DriveStatus ModelNumber SerialNumber TotalCapacity
       PhysicalBlockSize LogicalBlockSize Topology FilesystemUUID
       PartitionUUID MajorNumber MinorNumber UeventSerial UeventFSUUID WWID
       Vendor DMName DMUUID MDUUID PartTableUUID PartTableType Virtual
       ReadOnly Partitioned SwapOn Master].
  rewrite Hfs, Hpt, !String.eqb_refl, !Z.eqb_refl, !Bool.eqb_reflx.
  cbn [negb]. cbv beta iota zeta.
  rewrite andb_false_r.
  destruct Hstatus as [Hactive | Hsame].
  - destruct Status_DriveStatus0; try discriminate Hactive;
      now destruct (negb _).
  - rewrite Hsame.
    replace (DriveStatus_eqb Status_DriveStatus0 Status_DriveStatus0)
      with true by now destruct Status_DriveStatus0.
    now destruct Status_DriveStatus0.
Qed.

(** C9: when the Device report agrees with the Drive record field by
    field, [update] returns nil without a request to the store: for a
    drive that is in use (as for one that is ready or terminating) it is
    enough that filesystem UUIDs and mount point are unchanged along with
    the other fields; for an available or unavailable drive the status
    computed from the Device must be the recorded one as well. *)
Theorem update_without_difference_writes_nothing store device drive :
  agrees FSTypeEqual device drive ->
  Mountpoint (Status drive) = sys.FirstMountPoint device ->
  (Status_DriveStatus (Status drive) = DriveStatusInUse
   \/ isActive (Status_DriveStatus (Status drive)) = true
   \/ NewDriveStatus device = Status_DriveStatus (Status drive)) ->
  update FSTypeEqual NewDriveStatus MountRoot Join SanitizeDrivePath
    DriveLabelKey DirectCSIDriveFinalizerPrefix store device drive
  = (store, drive, [], None).
Proof.
  intros Hagree Hmount Hstatus. unfold update.
  rewrite updateFields_unchanged; [reflexivity | assumption | assumption |].
  destruct Hstatus as [H | [H | H]]; [left; now rewrite H | now left | now right].
Qed.

(** After [update], the four hardware identity fields hold the values of
    the Device, whatever was recorded. *)
Lemma updateFields_hardware_identity device drive :
  let st' :=
    Status (updateFields FSTypeEqual NewDriveStatus MountRoot Join
              SanitizeDrivePath DriveLabelKey device drive).1.1 in
  ModelNumber st' = sys.Model device
  /\ SerialNumber st' = sys.Serial device
  /\ WWID st' = sys.WWID device
  /\ Vendor st' = sys.Vendor device.
Proof.
  unfold updateFields. cbn [fst Status ModelNumber SerialNumber WWID Vendor].
  repeat split;
    match goal with
    | |- (if negb (String.eqb ?a ?b) then _ else _) = _ =>
        now destruct (String.eqb_spec a b)
    end.
Qed.

(** A difference in the model number alone raises the [updated] flag. *)
Lemma updateFields_updated_by_model device drive :
  ModelNumber (Status drive) <> sys.Model device ->
  (updateFields FSTypeEqual NewDriveStatus MountRoot Join SanitizeDrivePath
     DriveLabelKey device drive).1.2 = true.
Proof.
  intros Hne. unfold updateFields. cbn [fst snd]. cbv zeta.
  repeat match goal with
         | |- (if negb (String.eqb (ModelNumber ?st) ?m) then true else _) = true =>
             destruct (String.eqb_spec (ModelNumber st) m);
             [contradiction | reflexivity]
         | |- (if ?c then true else _) = true =>
             destruct c; [reflexivity|]
         end.
Qed.

(** C7 at its failing input: the Drive records model "M1" and WWID "W1",
    the Device reports "M2" and "W2"; [update] overwrites both and sends
    the overwritten record to the store. *)
Theorem update_overwrites_recorded_identity store :
  let r := update FSTypeEqual NewDriveStatus MountRoot Join SanitizeDrivePath
             DriveLabelKey DirectCSIDriveFinalizerPrefix store
             Examples.sdbM2 Examples.driveW1M1 in
  let store' := r.1.1.1 in
  let drive' := r.1.1.2 in
  ModelNumber (Status Examples.driveW1M1) = "M1"
  /\ WWID (Status Examples.driveW1M1) = "W1"
  /\ ModelNumber (Status drive') = "M2"
  /\ WWID (Status drive') = "W2"
  /\ client.calls store' = client.UpdateDriveReq drive' :: client.calls store.
Proof.
  cbv zeta. unfold update.
  pose proof (updateFields_hardware_identity Examples.sdbM2 Examples.driveW1M1)
    as (Hmodel & _ & Hwwid & _).
  pose proof (updateFields_updated_by_model Examples.sdbM2 Examples.driveW1M1)
    as Hupdated.
  destruct (updateFields _ _ _ _ _ _ _ _) as [[drive' updated] nameChanged].
  cbn [fst snd] in Hmodel, Hwwid, Hupdated.
  rewrite Hupdated by discriminate. cbn [negb].
  unfold client.UpdateDrive.
  split; [reflexivity|]. split; [reflexivity|].
  destruct (client.drives store !! Name drive'); cbn [fst snd];
    [destruct nameChanged|]; cbn [negb fst snd client.calls]; auto.
Qed.

(** The sync path keeps what is recorded: a non-empty hardware identity
    field survives [syncDriveStates]. *)
Lemma syncDriveStates_keeps_recorded_identity device drive :
  let st := Status drive in
  let st' :=
    Status (syncDriveStates SanitizeDrivePath DriveLabelKey
              MinSupportedDeviceSize nodeID topology device drive) in
  (ModelNumber st <> "" -> ModelNumber st' = ModelNumber st)
  /\ (SerialNumber st <> "" -> SerialNumber st' = SerialNumber st)
  /\ (WWID st <> "" -> WWID st' = WWID st)
  /\ (Vendor st <> "" -> Vendor st' = Vendor st).
Proof.
  unfold syncDriveStates.
  cbn [Status ModelNumber SerialNumber WWID Vendor].
  repeat split; intros Hne;
    match goal with
    | |- (if String.eqb ?a "" then _ else _) = _ =>
        now destruct (String.eqb_spec a "")
    end.
Qed.

End Reconciliation.

Lemma update_without_difference_writes_nothing_witness :
  node.update String.eqb (fun _ => directcsi.DriveStatusAvailable)
    "/var/lib/direct-csi/mnt"
    (fun root name => root ++ "/" ++ name) (fun path => path)
    "direct.csi.min.io/path" "direct.csi.min.io.volume/"
    Examples.emptyStore Examples.mounted Examples.driveInUse
  = (Examples.emptyStore, Examples.driveInUse, [], None).
Proof.
  apply update_without_difference_writes_nothing.
  - unfold node.agrees. cbn. repeat split; reflexivity.
  - reflexivity.
  - left. reflexivity.
Defined.

(** ** Volume teardown *)

Section VolumeTeardown.

Import Go directcsi volume.

Variable DirectCSIDriveFinalizerPrefix : string.
Variable DirectCSIDriveFinalizerDataProtection : string.

Lemma excludeFinalizer_fold finalizers finalizer result found :
  fold_left
    (fun '(result, found) f =>
       if negb (String.eqb f finalizer) then ((result ++ [f])%list, found)
       else (result, true))
    finalizers (result, found)
  = ((result ++ List.filter (isNot finalizer) finalizers)%list,
     found || existsb (fun f => String.eqb f finalizer) finalizers).
Proof.
  revert result found.
  induction finalizers as [|f finalizers IH]; intros result found; simpl.
  - now rewrite app_nil_r, orb_false_r.
  - unfold isNot at 1. destruct (String.eqb f finalizer); cbn [negb].
    + rewrite IH. now rewrite orb_true_r.
    + rewrite IH. now rewrite <- app_assoc.
Qed.

(** [excludeFinalizer] keeps, in order, the entries different from
    [finalizer] and tells whether there was one equal to it. *)
Lemma excludeFinalizer_filter finalizers finalizer :
  excludeFinalizer finalizers finalizer
  = (List.filter (isNot finalizer) finalizers,
     existsb (fun f => String.eqb f finalizer) finalizers).
Proof. unfold excludeFinalizer. now rewrite excludeFinalizer_fold. Qed.

Lemma existsb_eqb_In finalizers finalizer :
  In finalizer finalizers ->
  existsb (fun f => String.eqb f finalizer) finalizers = true.
Proof.
  intros H. apply existsb_exists. exists finalizer.
  split; [exact H | apply String.eqb_refl].
Qed.

Lemma filter_isNot_id finalizers finalizer :
  ~ In finalizer finalizers ->
  List.filter (isNot finalizer) finalizers = finalizers.
Proof.
  induction finalizers as [|f finalizers IH]; intros Hnot; simpl; [reflexivity|].
  unfold isNot at 1. destruct (String.eqb_spec f finalizer) as [->|Hne].
  - exfalso. apply Hnot. now left.
  - cbn [negb]. rewrite IH; [reflexivity|]. intros Hin. apply Hnot. now right.
Qed.

(** In a list without duplicates the filter drops one entry. *)
Lemma filter_isNot_length finalizers finalizer :
  List.NoDup finalizers -> In finalizer finalizers ->
  S (length (List.filter (isNot finalizer) finalizers)) = length finalizers.
Proof.
  induction 1 as [|f finalizers Hnotin Hnodup IH]; intros Hin; [destruct Hin|].
  simpl. unfold isNot at 1.
  destruct (String.eqb_spec f finalizer) as [->|Hne]; cbn [negb].
  - now rewrite filter_isNot_id.
  - simpl. f_equal. apply IH. destruct Hin as [Heq|Hin]; [congruence|exact Hin].
Qed.

Lemma filter_isNot_In finalizers finalizer f :
  In f (List.filter (isNot finalizer) finalizers)
  <-> In f finalizers /\ f <> finalizer.
Proof.
  rewrite filter_In. unfold isNot.
  destruct (String.eqb_spec f finalizer); cbn [negb]; intuition congruence.
Qed.

(** C5: releasing a volume of capacity [capacity] from its drive, whose
    finalizers contain the volume's finalizer and whose free capacity is
    total minus allocated, stores the drive with the free capacity raised
    and the allocated capacity lowered by [capacity]; the volume's
    finalizer is gone and every other finalizer is kept, in order, which
    is one entry less when the finalizers are a set; the status becomes
    Ready exactly when the data-protection marker is the one finalizer
    left, and is untouched otherwise. *)
Theorem releaseVolume_returns_capacity store driveName volumeName capacity drive :
  let finalizer := DirectCSIDriveFinalizerPrefix ++ volumeName in
  let st := Status drive in
  client.drives store !! driveName = Some drive ->
  Name drive = driveName ->
  In finalizer (Finalizers drive) ->
  FreeCapacity st = (TotalCapacity st - AllocatedCapacity st)%Z ->
  in_int64 (FreeCapacity st + capacity) ->
  in_int64 (AllocatedCapacity st - capacity) ->
  exists drive',
    releaseVolume DirectCSIDriveFinalizerPrefix
      DirectCSIDriveFinalizerDataProtection store driveName volumeName capacity
    = ({| client.drives := <[driveName := drive']> (client.drives store);
          client.volumes := client.volumes store;
          client.calls := client.UpdateDriveReq drive' :: client.calls store |},
       None)
    /\ FreeCapacity (Status drive') = (FreeCapacity st + capacity)%Z
    /\ AllocatedCapacity (Status drive') = (AllocatedCapacity st - capacity)%Z
    /\ TotalCapacity (Status drive') = TotalCapacity st
    /\ Finalizers drive' = List.filter (isNot finalizer) (Finalizers drive)
    /\ (forall f, In f (Finalizers drive')
                  <-> In f (Finalizers drive) /\ f <> finalizer)
    /\ (List.NoDup (Finalizers drive) ->
        S (length (Finalizers drive')) = length (Finalizers drive))
    /\ (Finalizers drive' = [DirectCSIDriveFinalizerDataProtection] ->
        Status_DriveStatus (Status drive') = DriveStatusReady)
    /\ (Finalizers drive' <> [DirectCSIDriveFinalizerDataProtection] ->
        Status_DriveStatus (Status drive') = Status_DriveStatus st).
Proof.
  intros finalizer st Hget Hname Hin Hfree Hsum Hdiff.
  unfold releaseVolume, client.GetDrive. rewrite Hget.
  fold finalizer. rewrite excludeFinalizer_filter.
  rewrite existsb_eqb_In by exact Hin.
  fold st. rewrite (wrap_int64_id _ Hsum).
  replace (TotalCapacity st - (FreeCapacity st + capacity))%Z
    with (AllocatedCapacity st - capacity)%Z by lia.
  rewrite (wrap_int64_id _ Hdiff).
  eexists. split.
  - unfold client.UpdateDrive. cbn [released Name]. rewrite Hname, Hget.
    reflexivity.
  - cbn [released Status Finalizers FreeCapacity AllocatedCapacity
         TotalCapacity Status_DriveStatus].
    split; [reflexivity|]. split; [reflexivity|]. split; [reflexivity|].
    split; [reflexivity|].
    split; [intros f; apply filter_isNot_In|].
    split; [intros Hnodup; now apply filter_isNot_length|].
    split.
    + intros ->. now rewrite String.eqb_refl.
    + destruct (List.filter (isNot finalizer) (Finalizers drive))
        as [|f [|g rest]]; try reflexivity.
      destruct (String.eqb_spec f DirectCSIDriveFinalizerDataProtection)
        as [->|Hne]; [intros H; now destruct H | reflexivity].
Qed.

Variable DirectCSIVolumeFinalizerPurgeProtection : string.
Variable DirectCSIVolumeConditionPublished : string.
Variable Host : Type.
Variable RemoveAll : string -> Host -> Host * option string.

(** C6: a volume marked for deletion with a true Published condition is
    refused, and nothing moves: the store (records and requests), the
    host file system and the volume are what they were. *)
Theorem remove_refuses_published_volume store host volume :
  IsZero (Vol.DeletionTimestamp volume) = false ->
  (exists condition,
      In condition (Vol.Conditions (Vol.Status volume))
      /\ Vol.Type_ condition = DirectCSIVolumeConditionPublished
      /\ Vol.CStatus condition = Vol.ConditionTrue) ->
  remove DirectCSIDriveFinalizerPrefix DirectCSIDriveFinalizerDataProtection
    DirectCSIVolumeFinalizerPurgeProtection DirectCSIVolumeConditionPublished
    Host RemoveAll store host volume
  = (store, host, volume, Some errWaitingForRelease).
Proof.
  intros Hdel (condition & Hin & Htype & Hstatus).
  unfold remove. rewrite Hdel.
  replace (isPublished _ _) with true; [reflexivity|].
  symmetry. apply existsb_exists. exists condition.
  split; [exact Hin|]. rewrite Htype, Hstatus. now rewrite String.eqb_refl.
Qed.

End VolumeTeardown.

Lemma releaseVolume_returns_capacity_witness :
  exists drive',
    (volume.releaseVolume "direct.csi.min.io.volume/"
       "direct.csi.min.io/data-protection" Examples.storeD "D" "V20" 20971520).2
    = None
    /\ client.drives
         (volume.releaseVolume "direct.csi.min.io.volume/"
            "direct.csi.min.io/data-protection" Examples.storeD "D" "V20"
            20971520).1 !! "D" = Some drive'
    /\ directcsi.FreeCapacity (directcsi.Status drive') = 73400320%Z
    /\ directcsi.AllocatedCapacity (directcsi.Status drive') = 31457280%Z
    /\ directcsi.Finalizers drive'
       = ["direct.csi.min.io/data-protection"; "direct.csi.min.io.volume/V30"]
    /\ S (length (directcsi.Finalizers drive'))
       = length (directcsi.Finalizers Examples.driveD)
    /\ directcsi.Status_DriveStatus (directcsi.Status drive')
       = directcsi.DriveStatusInUse.
Proof.
  destruct (releaseVolume_returns_capacity "direct.csi.min.io.volume/"
              "direct.csi.min.io/data-protection" Examples.storeD "D" "V20"
              20971520%Z Examples.driveD)
    as (drive' & Hrun & Hfree & Halloc & _ & Hfin & _ & Hlen & _ & Hkeep).
  - apply lookup_singleton_eq.
  - reflexivity.
  - simpl. right. left. reflexivity.
  - reflexivity.
  - unfold Go.in_int64. simpl. lia.
  - unfold Go.in_int64. simpl. lia.
  - exists drive'. rewrite Hrun. cbn [fst snd client.drives].
    split; [reflexivity|]. split; [apply lookup_insert_eq|].
    split; [exact Hfree|]. split; [exact Halloc|]. split; [exact Hfin|].
    split.
    + apply Hlen. repeat constructor; simpl; intuition discriminate.
    + rewrite Hkeep; [reflexivity|]. rewrite Hfin. discriminate.
Defined.

Lemma remove_refuses_published_volume_witness :
  volume.remove "direct.csi.min.io.volume/" "direct.csi.min.io/data-protection"
    "direct.csi.min.io/purge-protection" "Published"
    unit (fun _ host => (host, None))
    Examples.storeD tt (Examples.volumeV20 directcsi.Vol.ConditionTrue)
  = (Examples.storeD, tt, Examples.volumeV20 directcsi.Vol.ConditionTrue,
     Some volume.errWaitingForRelease).
Proof.
  apply remove_refuses_published_volume.
  - reflexivity.
  - eexists. split; [right; left; reflexivity|]. split; reflexivity.
Defined.
